(** * EMOTISENSE AI: stabilizer, localizer, fallback generator, event
      detector and session aggregates

    A shallow embedding of the algorithmic core of the repository:

    - [src/webcam/face_emotion.py]  (module [FaceEmotion])
    - [src/utils.py]                (module [Utils])
    - [src/fallback/rule_based.py]  (module [Fallback])
    - the auto-screenshot block of [live_dashboard] in [app.py]
      (module [App])
    - the stress alert of [src/dashboard/ui_components.py] and the data
      cleaning of the pie chart of [src/dashboard/plots.py]
      (module [Dashboard])

    Numbers.  Python floats are read as exact rationals ([Q]); equalities
    between computed values are therefore stated with [==].  [np.sin] and
    [np.cos] are kept abstract, and [random.choice] is a draw handed to the
    generator.  Python dicts keep their insertion order, which
    [max(d, key=d.get)] observes, so an emotion mapping is an association
    list in insertion order (keys are distinct in a dict; the functions
    below agree with Python on such lists); the [last_screenshot_time]
    dict, which is only read and written by key, is a [gmap].  The dicts
    held in the stabilizer's history are never written to by the code
    under study, so they are values here. *)

From Stdlib Require Import QArith Qminmax Qabs Qround Lia Lqa.
From stdpp Require Import gmap strings list.

Open Scope Q_scope.

(** ** Python helpers *)

Module Py.

(** An emotion mapping: label -> probability, in insertion order. *)
Definition dict : Type := list (string * Q).

(** [d.get(k, dflt)] *)
Fixpoint get (d : dict) (k : string) (dflt : Q) : Q :=
  match d with
  | [] => dflt
  | (k', v) :: d' => if String.eqb k' k then v else get d' k dflt
  end.

(** [d[k]]: [None] stands for [KeyError]. *)
Fixpoint item (d : dict) (k : string) : option Q :=
  match d with
  | [] => None
  | (k', v) :: d' => if String.eqb k' k then Some v else item d' k
  end.

Definition keys (d : dict) : list string := d.*1.
Definition values (d : dict) : list Q := d.*2.

(** Truth value of a possibly absent dict: [None] and [{}] are falsy. *)
Definition truthy (d : option dict) : bool :=
  match d with
  | Some (_ :: _) => true
  | _ => false
  end.

(** [sum(xs)]: left fold starting from [0]. *)
Definition sum (xs : list Q) : Q := fold_left Qplus xs 0.

Definition Qlt_bool (a b : Q) : bool := negb (Qle_bool b a).

(** [max(a, b)] on numbers: [b] only when it is strictly greater. *)
Definition max2 (a b : Q) : Q := if Qlt_bool a b then b else a.
(** [min(a, b)]: [b] only when it is strictly smaller. *)
Definition min2 (a b : Q) : Q := if Qlt_bool b a then b else a.

(** [max(xs, key=f)]: the first element whose key is maximal; [None]
    stands for the [ValueError] on an empty sequence. *)
Definition max_by {A} (f : A -> Q) (xs : list A) : option A :=
  match xs with
  | [] => None
  | x :: xs' =>
      Some (fold_left (fun best y => if Qlt_bool (f best) (f y) then y else best)
                      xs' x)
  end.

(** [l[-n:]]; note that [l[-0:]] is the whole list. *)
Definition last_n {A} (n : nat) (l : list A) : list A :=
  if (n =? 0)%nat then l else drop (length l - n) l.

(** [deque(maxlen=n).append(x)]: the oldest entry falls out when full. *)
Definition deque_append {A} (n : nat) (l : list A) (x : A) : list A :=
  drop (length (l ++ [x]) - n) (l ++ [x]).


(** A probability vector over [labels]: exactly these labels, in this
    order, with non-negative scores that sum to 1. *)
Definition distribution (labels : list string) (d : dict) : Prop :=
  keys d = labels /\ Forall (fun v => 0 <= v) (values d)
  /\ sum (values d) == 1.

End Py.

(** ** src/webcam/face_emotion.py *)

Module FaceEmotion.
Import Py.

(** A face box [[x, y, w, h]] in pixel coordinates. *)
Record box : Type := Box { bx : Z; by_ : Z; bw : Z; bh : Z }.

(** The part of [FaceEmotionDetector] that the smoothing and the
    localizer touch. *)
Record detector : Type := Detector {
  emotion_history : list dict;      (* deque(maxlen=5) *)
  face_history : list box;          (* deque(maxlen=3) *)
  last_valid_emotions : option dict (* None until a vector was smoothed *)
}.

Definition init : detector :=
  {| emotion_history := []; face_history := []; last_valid_emotions := None |}.

Definition _get_neutral_emotions : dict :=
  [ ("angry"%string, 0.05); ("disgust"%string, 0.05); ("fear"%string, 0.05);
    ("happy"%string, 0.15); ("sad"%string, 0.05); ("surprise"%string, 0.05);
    ("neutral"%string, 0.60) ].

(** [[0.1, 0.2, 0.3, 0.4] if len(values) >= 4 else [0.3, 0.7] if
    len(values) >= 2 else [1.0]], then [weights[-len(values):]]. *)
Definition weights_for (n : nat) : list Q :=
  last_n n (if (4 <=? n)%nat then [0.1; 0.2; 0.3; 0.4]
            else if (2 <=? n)%nat then [0.3; 0.7]
            else [1.0]).

(** The body of the [for emotion in current_emotions.keys()] loop. *)
Definition smooth_label (history : list dict) (emotion : string) : Q :=
  let values := map (fun hist => get hist emotion 0) history in
  let weights := weights_for (length values) in
  sum (zip_with Qmult values weights) / sum weights.

Definition _get_stable_emotions (current_emotions : option dict) (s : detector)
  : dict * detector :=
  match current_emotions with
  | Some ((_ :: _) as cur) =>
      let history := deque_append 5 (emotion_history s) cur in
      if (3 <=? length history)%nat then
        let smoothed := map (fun kv => (kv.1, smooth_label history kv.1)) cur in
        (smoothed,
         {| emotion_history := history; face_history := face_history s;
            last_valid_emotions := Some smoothed |})
      else
        (cur,
         {| emotion_history := history; face_history := face_history s;
            last_valid_emotions := Some cur |})
  | _ =>
      (* [self.last_valid_emotions or self._get_neutral_emotions()] *)
      (if truthy (last_valid_emotions s)
       then default _get_neutral_emotions (last_valid_emotions s)
       else _get_neutral_emotions,
       s)
  end.

Definition _calculate_negative_score (emotions : dict) : Q :=
  0.4 * get emotions "sad" 0 + 0.3 * get emotions "angry" 0
  + 0.2 * get emotions "fear" 0 + 0.1 * get emotions "disgust" 0.

(** [int(q)]: truncation toward zero. *)
Definition py_int (q : Q) : Z := Z.quot (Qnum q) (Zpos (Qden q)).

(** The test of the candidate loop of [_select_best_face]; [h], [w] are
    [frame_shape[:2]]. *)
Definition face_ok (h w : Z) (face : box) : bool :=
  let '(Box x y fw fh) := face in
  (80 <? fw)%Z && (80 <? fh)%Z &&
  (0 <? x)%Z && (0 <? y)%Z &&
  (x + fw <? w)%Z && (y + fh <? h)%Z &&
  Qlt_bool (inject_Z fw) (inject_Z w * 0.8) &&
  Qlt_bool (inject_Z fh) (inject_Z h * 0.8).

Definition valid_faces (faces : list box) (h w : Z) : list box :=
  filter (fun face => face_ok h w face = true) faces.

(** Blend of one coordinate with [alpha = 0.7]. *)
Definition blend (new old : Z) : Z :=
  py_int (0.7 * inject_Z new + (1 - 0.7) * inject_Z old).

Definition _select_best_face (faces : list box) (frame_shape : Z * Z)
    (s : detector) : option box * detector :=
  let '(h, w) := frame_shape in
  match max_by (fun f => inject_Z (bw f * bh f)) (valid_faces faces h w) with
  | None => (None, s)
  | Some best_face =>
      let best_face :=
        match last (face_history s) with
        | Some last_face =>
            if (50 <? Z.abs (bx best_face - bx last_face))%Z
               || (50 <? Z.abs (by_ best_face - by_ last_face))%Z
            then Box (blend (bx best_face) (bx last_face))
                     (blend (by_ best_face) (by_ last_face))
                     (blend (bw best_face) (bw last_face))
                     (blend (bh best_face) (bh last_face))
            else best_face
        | None => best_face
        end in
      (Some best_face,
       {| emotion_history := emotion_history s;
          face_history := deque_append 3 (face_history s) best_face;
          last_valid_emotions := last_valid_emotions s |})
  end.

(** The size test that [_detect_face_multi_method] applies to the boxes of
    the FER and dlib backends. *)
Definition min_size_ok (b : box) : bool := (60 <? bw b)%Z && (60 <? bh b)%Z.

(** [_detect_face_multi_method].  The three backends are black boxes: each
    argument is the list of boxes a backend returns on the frame, [None]
    when the backend is unavailable or its call raises (the [except: pass]
    of its block).  A later backend is asked only when [faces] is still
    empty. *)
Definition _detect_face_multi_method (fer cascade dlib : option (list box))
    (frame_shape : Z * Z) (s : detector) : option box * detector :=
  let faces := filter (fun b => min_size_ok b = true) (default [] fer) in
  let faces :=
    match faces with
    | [] => default [] cascade
    | _ => faces
    end in
  let faces :=
    match faces with
    | [] => filter (fun b => min_size_ok b = true) (default [] dlib)
    | _ => faces
    end in
  _select_best_face faces frame_shape s.

(** Consecutive calls of [_select_best_face], one candidate list and frame
    shape per call: the boxes returned and the detector afterwards. *)
Fixpoint locate (calls : list (list box * (Z * Z))) (s : detector)
  : list (option box) * detector :=
  match calls with
  | [] => ([], s)
  | (faces, frame_shape) :: calls' =>
      let '(b, s') := _select_best_face faces frame_shape s in
      let '(bs, s'') := locate calls' s' in
      (b :: bs, s'')
  end.

End FaceEmotion.

(** ** src/utils.py *)

Module Utils.
Import Py.

Definition calculate_negative_score (emotion_dict : dict) : Q :=
  let negative_emotions := ["angry"; "disgust"; "fear"; "sad"]%string in
  sum (map (fun emotion => get emotion_dict emotion 0) negative_emotions).

(** One record of the session series: the columns the aggregates read. *)
Record row : Type := Row { timestamp : Z; stress : Q; engagement : Q }.

(** A data frame is its rows in index order; [df.empty] is [df = []]. *)
Definition dataframe : Type := list row.

Definition mean (xs : list Q) : Q := sum xs / inject_Z (Z.of_nat (length xs)).

(** [Series.var()], the sample variance (ddof = 1); [None] is the NaN that
    pandas returns for fewer than two values. *)
Definition var (xs : list Q) : option Q :=
  if (length xs <=? 1)%nat then None
  else
    let m := mean xs in
    Some (sum (map (fun x => (x - m) * (x - m)) xs)
          / inject_Z (Z.of_nat (length xs - 1))).

Record moment : Type := Moment { m_timestamp : Z; m_score : Q }.

(** The dict returned by [calculate_session_analytics]: [{}], the five
    entries set in the [try] block, or the three of its [except] block. *)
Inductive analytics : Type :=
| EmptyAnalytics
| Analytics (most_stressed most_engaged : moment) (stability_score : Q)
            (longest_stress_duration : Z) (critical_moments : list moment)
| DefaultAnalytics (stability_score : Q) (longest_stress_duration : Z)
                   (critical_moments : list moment).

Definition calculate_session_analytics (df : dataframe) : analytics :=
  match df with
  | [] => EmptyAnalytics
  | _ =>
      (* [idxmax] is the first row holding the maximum *)
      match max_by stress df, max_by engagement df with
      | Some s_row, Some e_row =>
          Analytics (Moment (timestamp s_row) (stress s_row))
                    (Moment (timestamp e_row) (engagement e_row))
                    (* [max(0, 1 - nan)] is [0] *)
                    (match var (map stress df) with
                     | Some v => max2 0 (1 - v)
                     | None => 0
                     end)
                    5 []
      | _, _ => DefaultAnalytics 0.5 0 []
      end
  end.

Definition calculate_session_quality_score (df : dataframe) : Q :=
  match df with
  | [] => 0
  | _ =>
      let avg_stress := mean (map stress df) in
      let avg_engagement := mean (map engagement df) in
      let stress_score := max2 0 (100 - avg_stress * 100) in
      let engagement_score := avg_engagement * 100 in
      let quality_score := stress_score * 0.6 + engagement_score * 0.4 in
      min2 100 (max2 0 quality_score)
  end.



End Utils.

(** ** src/fallback/rule_based.py *)

Module Fallback.
Import Py.

(** [EMOTIONS] of [src/config.py]. *)
Definition EMOTIONS : list string :=
  ["angry"; "disgust"; "fear"; "happy"; "sad"; "surprise"; "neutral"]%string.

(** The fields that [generate_face_emotions] reads or writes; the two
    trend fields, which only [simulate_scenario] sets, are left out. *)
Record generator : Type := Generator {
  last_face_emotions : dict;
  last_audio_stress : Q;
  time_factor : nat;
  scenario_timer : nat;
  current_scenario : string
}.

Definition init : generator :=
  {| last_face_emotions :=
       map (fun emotion => (emotion, 1 / inject_Z (Z.of_nat (length EMOTIONS))))
           EMOTIONS;
     last_audio_stress := 0.5;
     time_factor := 0;
     scenario_timer := 0;
     current_scenario := "normal" |}.

Definition scenarios : list string := ["normal"; "happy"; "stressed"]%string.

(** [random.choice(scenarios)]; [rnd] is the draw of the generator. *)
Definition random_choice (rnd : nat) : string :=
  nth (rnd mod length scenarios) scenarios "normal"%string.

Section Waves.
(** [np.sin] and [np.cos] on floats. *)
Variables np_sin np_cos : Q -> Q.

(** The unnormalised weights, in the order the branches insert them. *)
Definition raw_emotions (scenario : string) (time_mod : Q) : dict :=
  if String.eqb scenario "happy" then
    [ ("happy"%string, max2 0.01 (0.4 + 0.3 * np_sin time_mod));
      ("neutral"%string, max2 0.01 (0.3 + 0.1 * np_cos (time_mod * 0.7)));
      ("surprise"%string, max2 0.01 (0.1 + 0.1 * np_sin (time_mod * 1.3)));
      ("sad"%string, max2 0.01 (0.05 + 0.05 * np_sin (time_mod * 0.5)));
      ("angry"%string, max2 0.01 (0.05 + 0.05 * np_cos (time_mod * 0.3)));
      ("fear"%string, max2 0.01 (0.03 + 0.02 * np_sin (time_mod * 2)));
      ("disgust"%string, max2 0.01 (0.02 + 0.03 * np_cos (time_mod * 1.7))) ]
  else if String.eqb scenario "stressed" then
    [ ("angry"%string, max2 0.01 (0.3 + 0.2 * np_sin (time_mod * 1.2)));
      ("fear"%string, max2 0.01 (0.2 + 0.15 * np_cos (time_mod * 0.8)));
      ("sad"%string, max2 0.01 (0.15 + 0.1 * np_sin (time_mod * 0.6)));
      ("neutral"%string, max2 0.01 (0.2 + 0.1 * np_cos time_mod));
      ("happy"%string, max2 0.01 (0.05 + 0.05 * np_sin (time_mod * 0.3)));
      ("surprise"%string, max2 0.01 (0.05 + 0.05 * np_cos (time_mod * 1.5)));
      ("disgust"%string, max2 0.01 (0.05 + 0.05 * np_sin (time_mod * 2.1))) ]
  else
    [ ("neutral"%string, max2 0.01 (0.4 + 0.2 * np_sin (time_mod * 0.5)));
      ("happy"%string, max2 0.01 (0.25 + 0.15 * np_cos (time_mod * 0.7)));
      ("sad"%string, max2 0.01 (0.1 + 0.08 * np_sin (time_mod * 0.3)));
      ("surprise"%string, max2 0.01 (0.08 + 0.07 * np_cos (time_mod * 1.1)));
      ("angry"%string, max2 0.01 (0.07 + 0.06 * np_sin (time_mod * 0.9)));
      ("fear"%string, max2 0.01 (0.05 + 0.04 * np_cos (time_mod * 1.3)));
      ("disgust"%string, max2 0.01 (0.05 + 0.04 * np_sin (time_mod * 1.7))) ].

Definition neutral_fallback : dict :=
  [ ("neutral"%string, 0.7); ("happy"%string, 0.1); ("sad"%string, 0.05);
    ("angry"%string, 0.05); ("fear"%string, 0.05); ("surprise"%string, 0.03);
    ("disgust"%string, 0.02) ].

(** Returns the emotions, the line printed when the scenario changes,
    and the generator after the call. *)
Definition generate_face_emotions (rnd : nat) (g : generator)
  : dict * option string * generator :=
  let time_factor := S (time_factor g) in
  let time_mod := inject_Z (Z.of_nat time_factor) * 0.1 in
  let emotions := raw_emotions (current_scenario g) time_mod in
  let total := sum (values emotions) in
  let emotions :=
    if Qlt_bool 0 total
    then map (fun kv => (kv.1, kv.2 / total)) emotions
    else neutral_fallback in
  let scenario_timer := S (scenario_timer g) in
  if (20 <? scenario_timer)%nat then
    let scenario := random_choice rnd in
    (emotions, Some scenario,
     {| last_face_emotions := emotions;
        last_audio_stress := last_audio_stress g;
        time_factor := time_factor;
        scenario_timer := 0;
        current_scenario := scenario |})
  else
    (emotions, None,
     {| last_face_emotions := emotions;
        last_audio_stress := last_audio_stress g;
        time_factor := time_factor;
        scenario_timer := scenario_timer;
        current_scenario := current_scenario g |}).

(** [n] consecutive calls, the [i]-th of them with the draw [rnd i]:
    the lines printed, in call order, and the generator afterwards. *)
Fixpoint run (n : nat) (rnd : nat -> nat) (g : generator)
  : list (option string) * generator :=
  match n with
  | O => ([], g)
  | S n' =>
      let '(_, printed, g') := generate_face_emotions (rnd O) g in
      let '(log, g'') := run n' (fun i => rnd (S i)) g' in
      (printed :: log, g'')
  end.

(** [generate_audio_stress]; [noise] is the draw of
    [random.uniform(-0.1, 0.1)]. *)
Definition generate_audio_stress (noise : Q) (g : generator) : Q * generator :=
  let time_mod := inject_Z (Z.of_nat (time_factor g)) * 0.08 in
  let base_stress :=
    if String.eqb (current_scenario g) "stressed"
    then 0.7 + 0.2 * np_sin (time_mod * 1.5)
    else if String.eqb (current_scenario g) "happy"
    then 0.2 + 0.15 * np_sin (time_mod * 0.8)
    else 0.4 + 0.2 * np_sin time_mod in
  let stress := base_stress + noise in
  let stress := max2 0.0 (min2 1.0 stress) in
  (stress,
   {| last_face_emotions := last_face_emotions g;
      last_audio_stress := stress;
      time_factor := time_factor g;
      scenario_timer := scenario_timer g;
      current_scenario := current_scenario g |}).

(** The generator with the two trend fields that [simulate_scenario]
    writes. *)
Record simulator : Type := Simulator {
  gen : generator;
  emotion_trend : Q;
  stress_trend : Q
}.

Definition simulator_init : simulator :=
  {| gen := init; emotion_trend := 0.0; stress_trend := 0.0 |}.

(** [simulate_scenario]; [u] holds the two draws of
    [random.uniform(-0.3, 0.3)] of the last branch. *)
Definition simulate_scenario (scenario_type : string) (u : Q * Q)
    (s : simulator) : simulator :=
  if String.eqb scenario_type "stressed" then
    {| gen := gen s; emotion_trend := -0.8; stress_trend := 0.8 |}
  else if String.eqb scenario_type "happy" then
    {| gen := gen s; emotion_trend := 0.8; stress_trend := -0.5 |}
  else if String.eqb scenario_type "confused" then
    {| gen := gen s; emotion_trend := 0.0; stress_trend := 0.3 |}
  else
    {| gen := gen s; emotion_trend := u.1; stress_trend := u.2 |}.

Definition phases : list (string * Q) :=
  [ ("normal"%string, 0.3); ("stressed"%string, 0.2); ("happy"%string, 0.3);
    ("confused"%string, 0.2) ].

(** One data point of [generate_realistic_session_data], without its
    wall-clock stamp. *)
Record data_point : Type := DataPoint { face_emotions : dict; audio_stress : Q }.

(** The draws of one pass of the loop: the scenario choice, the audio
    noise and the two trend draws. *)
Record draws : Type := Draws { d_choice : nat; d_noise : Q; d_uniform : Q * Q }.

(** The [for i in range(total_points)] loop, one [draws] per pass. *)
Fixpoint session_loop (ds : list draws) (total_points : Z)
    (current_phase phase_progress : nat) (s : simulator)
  : list data_point * simulator :=
  match ds with
  | [] => ([], s)
  | d :: ds' =>
      let phase := nth current_phase phases ("normal"%string, 0.3) in
      let phase_duration :=
        FaceEmotion.py_int (inject_Z total_points * phase.2) in
      let '(current_phase, phase_progress, s) :=
        if (phase_duration <=? Z.of_nat phase_progress)%Z then
          let current_phase := (S current_phase mod length phases)%nat in
          (current_phase, 0%nat,
           simulate_scenario
             (nth current_phase phases ("normal"%string, 0.3)).1
             (d_uniform d) s)
        else (current_phase, phase_progress, s) in
      let '(face_emotions, _, g) := generate_face_emotions (d_choice d) (gen s) in
      let '(audio_stress, g) := generate_audio_stress (d_noise d) g in
      let s := {| gen := g; emotion_trend := emotion_trend s;
                  stress_trend := stress_trend s |} in
      let '(points, s) :=
        session_loop ds' total_points current_phase (S phase_progress) s in
      (DataPoint face_emotions audio_stress :: points, s)
  end.

(** [generate_realistic_session_data(duration_minutes)]: [ds] supplies the
    draws of the [duration_minutes * 60] passes. *)
Definition generate_realistic_session_data (duration_minutes : Z)
    (ds : nat -> draws) (s : simulator) : list data_point * simulator :=
  let points_per_minute := 60%Z in
  let total_points := (duration_minutes * points_per_minute)%Z in
  session_loop (map ds (seq 0 (Z.to_nat total_points))) total_points 0 0 s.

(** Face emotions and audio stress generated back to back, with no
    phases: what the data points are compared with. *)
Fixpoint plain_session (ds : list draws) (g : generator)
  : list data_point * generator :=
  match ds with
  | [] => ([], g)
  | d :: ds' =>
      let '(face_emotions, _, g) := generate_face_emotions (d_choice d) g in
      let '(audio_stress, g) := generate_audio_stress (d_noise d) g in
      let '(points, g) := plain_session ds' g in
      (DataPoint face_emotions audio_stress :: points, g)
  end.

End Waves.

End Fallback.

(** ** app.py: the auto-screenshot block of [live_dashboard]

    The block runs once per refresh in live mode when [pyautogui] can be
    imported.  [st.session_state] carries the two counters, the
    [last_screenshot_time] dict and the logger's [screenshots] list.  The
    fused metrics come from the fusion engine; they are read by key, so
    they are a [dict] here.  The record appended to [screenshots] keeps its
    [type] and [score]; its wall-clock stamp and file path are left out, and
    taking and saving the screenshot is taken to succeed. *)

Module App.
Import Py.

Record event : Type := Event { ev_type : string; ev_score : Q }.

Record session_state : Type := SessionState {
  stress_counter : nat;
  distraction_counter : nat;
  last_screenshot_time : gmap string Q;
  screenshots : list event
}.

(** The values the block installs when the keys are missing. *)
Definition init : session_state :=
  {| stress_counter := 0; distraction_counter := 0;
     last_screenshot_time := ∅; screenshots := [] |}.

(** [last_screenshot_time.get(key, 0)] *)
Definition last_shot (last : gmap string Q) (key : string) : Q :=
  default 0 (last !! key).

(** [max(face_emotions, key=face_emotions.get) if face_emotions else None] *)
Definition dominant (face_emotions : dict) : option string :=
  max_by (fun k => get face_emotions k 0) (keys face_emotions).

Definition is_happy (dominant_emotion : option string) : bool :=
  match dominant_emotion with
  | Some e => String.eqb e "happy"
  | None => false
  end.

(** One pass through the block at time [current_time].  A missing
    ['stress'] key raises at the first test and the handler leaves the
    state as it is. *)
Definition tick (face_emotions fused_metrics : dict) (current_time : Q)
    (st : session_state) : session_state * option event :=
  match item fused_metrics "stress" with
  | None => (st, None)
  | Some stress =>
      let confidence := get fused_metrics "confidence" 0 in
      let engagement := get fused_metrics "engagement" 1 in
      let last := last_screenshot_time st in
      let screenshot_taken := false in
      (* EXTREME STRESS *)
      let '(stress_counter, last, screenshot_taken) :=
        if Qle_bool 0.85 stress then
          let stress_counter := S (stress_counter st) in
          if (3 <=? stress_counter)%nat then
            if Qle_bool 10 (current_time - last_shot last "STRESS")
            then (0%nat, <["STRESS"%string := current_time]> last, true)
            else (stress_counter, last, screenshot_taken)
          else (stress_counter, last, screenshot_taken)
        else (0%nat, last, screenshot_taken) in
      (* EXTREME HAPPINESS *)
      let dominant_emotion := dominant face_emotions in
      let '(last, screenshot_taken) :=
        if is_happy dominant_emotion && Qle_bool 0.75 confidence then
          if Qle_bool 10 (current_time - last_shot last "HAPPY")
          then (<["HAPPY"%string := current_time]> last, true)
          else (last, screenshot_taken)
        else (last, screenshot_taken) in
      (* DISTRACTION *)
      let '(distraction_counter, last, screenshot_taken) :=
        if Qle_bool engagement 0.10 then
          let distraction_counter := S (distraction_counter st) in
          if (5 <=? distraction_counter)%nat then
            if Qle_bool 10 (current_time - last_shot last "DISTRACTION")
            then (0%nat, <["DISTRACTION"%string := current_time]> last, true)
            else (distraction_counter, last, screenshot_taken)
          else (distraction_counter, last, screenshot_taken)
        else (0%nat, last, screenshot_taken) in
      (* Take screenshot if triggered *)
      let ev :=
        if screenshot_taken then
          Some (if (stress_counter =? 0)%nat && Qle_bool 0.85 stress
                then Event "STRESS" stress
                else if is_happy dominant_emotion && Qle_bool 0.75 confidence
                then Event "HAPPY" confidence
                else if (distraction_counter =? 0)%nat && Qle_bool engagement 0.10
                then Event "DISTRACTION" engagement
                else Event "AUTO" stress)
        else None in
      ({| stress_counter := stress_counter;
          distraction_counter := distraction_counter;
          last_screenshot_time := last;
          screenshots := screenshots st ++ option_list ev |},
       ev)
  end.

(** One refresh: its face emotions, fused metrics and clock reading. *)
Definition refresh : Type := dict * dict * Q.

(** Consecutive refreshes. *)
Definition run (ticks : list refresh) (st : session_state) : session_state :=
  fold_left (fun st '(face_emotions, fused_metrics, current_time) =>
               (tick face_emotions fused_metrics current_time st).1)
            ticks st.

Definition stress_events (log : list event) : list event :=
  filter (fun e => ev_type e = "STRESS"%string) log.

End App.

(** ** src/dashboard/ui_components.py and src/dashboard/plots.py: what
       [live_dashboard] computes through them *)

Module Dashboard.
Import Py.

(** [display_stress_alert]: the value returned; the banner is shown exactly
    when it is [True]. *)
Definition display_stress_alert (stress_history : list Q) (threshold : Q)
    (duration : nat) : bool :=
  if (length stress_history <? duration)%nat then false
  else
    let recent_stress := last_n duration stress_history in
    forallb (fun stress => Qlt_bool threshold stress) recent_stress.

(** The labels and values that [create_emotion_pie_chart] hands to the pie
    trace, [None] for the figure that only says "No emotion data
    available"; [title] is [str.title].  The values of an emotion mapping
    are numbers, so the [isinstance] tests hold. *)
Definition pie_data (title : string -> string) (face_emotions : dict)
  : option (list string * list Q) :=
  match face_emotions with
  | [] => None
  | _ =>
      let kept := filter (fun kv => Qle_bool 0 kv.2 = true) face_emotions in
      let emotions := map (fun kv => title kv.1) kept in
      let values := map snd kept in
      match emotions with
      | [] => Some (["Neutral"%string], [1.0])
      | _ =>
          if Qeq_bool (sum values) 0
          then Some (["Neutral"%string], [1.0])
          else Some (emotions, values)
      end
  end.

End Dashboard.

(** ** Runs of the stabilizer and the statements it is compared with *)

Module Stabilizer.
Import Py FaceEmotion.

(** Consecutive calls of [_get_stable_emotions]: the outputs in call
    order and the detector after the last call. *)
Fixpoint feed (raws : list (option dict)) (s : detector) : list dict * detector :=
  match raws with
  | [] => ([], s)
  | raw :: raws' =>
      let '(out, s') := _get_stable_emotions raw s in
      let '(outs, s'') := feed raws' s' in
      (out :: outs, s'')
  end.

(** The output of the latest call of a run whose input was a vector, if
    there was one; [acc] is that output for the calls before the run. *)
Fixpoint last_stabilized (raws : list (option dict)) (s : detector)
    (acc : option dict) : option dict :=
  match raws with
  | [] => acc
  | raw :: raws' =>
      let '(out, s') := _get_stable_emotions raw s in
      last_stabilized raws' s' (if truthy raw then Some out else acc)
  end.

(** The weight table as the specification words it: one sample [1.0],
    two samples [0.3, 0.7], three or more [0.1, 0.2, 0.3, 0.4]. *)
Definition spec_table (n : nat) : list Q :=
  match n with
  | 0%nat | 1%nat => [1.0]
  | 2%nat => [0.3; 0.7]
  | _ => [0.1; 0.2; 0.3; 0.4]
  end.

(** The specification's weighted average of the values of one label,
    oldest first: the most recent four values at most, the table
    right-aligned to them, divided by the sum of the weights used. *)
Definition spec_weighted_average (values : list Q) : Q :=
  let used := drop (length values - 4) values in
  let weights := drop (length (spec_table (length values)) - length used)
                      (spec_table (length values)) in
  sum (zip_with Qmult used weights) / sum weights.

(** Two valid vectors over the seven labels. *)
Definition calm : dict :=
  [ ("angry"%string, 0); ("disgust"%string, 0); ("fear"%string, 0);
    ("happy"%string, 0); ("sad"%string, 0); ("surprise"%string, 0);
    ("neutral"%string, 1) ].
Definition joy : dict :=
  [ ("angry"%string, 0); ("disgust"%string, 0); ("fear"%string, 0);
    ("happy"%string, 1); ("sad"%string, 0); ("surprise"%string, 0);
    ("neutral"%string, 0) ].
Definition rage : dict :=
  [ ("angry"%string, 1); ("disgust"%string, 0); ("fear"%string, 0);
    ("happy"%string, 0); ("sad"%string, 0); ("surprise"%string, 0);
    ("neutral"%string, 0) ].

(** The inputs of a run that are vectors: neither absent nor empty. *)
Definition valid_inputs (raws : list (option dict)) : list dict :=
  omap (fun raw => if truthy raw then raw else None) raws.

End Stabilizer.

(** ** The candidate filter as the specification words it *)

Module Localizer.
Import Py FaceEmotion.

(** A box is discarded when it is smaller than the minimum size, extends
    outside the frame, or covers more than 80% of a frame dimension. *)
Definition spec_discards (min_size h w : Z) (face : box) : bool :=
  (bw face <? min_size)%Z || (bh face <? min_size)%Z
  || (bx face <? 0)%Z || (by_ face <? 0)%Z
  || (w <? bx face + bw face)%Z || (h <? by_ face + bh face)%Z
  || Qlt_bool (inject_Z w * 0.8) (inject_Z (bw face))
  || Qlt_bool (inject_Z h * 0.8) (inject_Z (bh face)).

End Localizer.

(** * Properties *)

Section StabilizerProperties.
Import Py FaceEmotion Stabilizer.

Lemma get_item (d : dict) (k : string) (dflt : Q) :
  get d k dflt = default dflt (item d k).
Proof.
  induction d as [|[k' v] d IH]; simpl; [done|].
  by destruct (String.eqb k' k).
Qed.

(** Reading a label of the dict built by the smoothing loop. *)
Lemma get_smoothed (f : string -> Q) (d : dict) (k : string) (dflt : Q) :
  get (map (fun kv => (kv.1, f kv.1)) d) k dflt
  = match item d k with Some _ => f k | None => dflt end.
Proof.
  induction d as [|[k' v] d IH]; simpl; [done|].
  destruct (String.eqb k' k) eqn:E; [|done].
  apply String.eqb_eq in E. by subst.
Qed.

(** With three entries in the history the table [0.3, 0.7] is paired
    with the two oldest ones. *)
Lemma smooth_label_three (a b c : dict) (k : string) :
  smooth_label [a; b; c] k == 0.3 * get a k 0 + 0.7 * get b k 0.
Proof. unfold smooth_label, weights_for, last_n, sum. simpl. field. Qed.

Lemma smooth_label_four (a b c d : dict) (k : string) :
  smooth_label [a; b; c; d] k
  == 0.1 * get a k 0 + 0.2 * get b k 0 + 0.3 * get c k 0 + 0.4 * get d k 0.
Proof. unfold smooth_label, weights_for, last_n, sum. simpl. field. Qed.

(** With exactly four entries the code computes the specification's
    average. *)
Lemma smooth_label_four_spec (a b c d : dict) (k : string) :
  smooth_label [a; b; c; d] k
  == spec_weighted_average (map (fun h => get h k 0) [a; b; c; d]).
Proof.
  unfold smooth_label, spec_weighted_average, weights_for, last_n, sum.
  simpl. field.
Qed.

(** With five entries the four weights are paired with the four oldest
    ones; the entry just appended is not read. *)
Lemma smooth_label_five (a b c d e : dict) (k : string) :
  smooth_label [a; b; c; d; e] k
  == 0.1 * get a k 0 + 0.2 * get b k 0 + 0.3 * get c k 0 + 0.4 * get d k 0.
Proof. unfold smooth_label, weights_for, last_n, sum. simpl. field. Qed.

(** C1 (the code departs from the claim).  Fed [calm], [calm], [joy] from
    a fresh detector, the history holds three entries at the third call;
    the output for "happy" is [0.3 * 0 + 0.7 * 0 = 0]: the newest entry
    has weight 0, where the claimed table gives it [0.4 / 0.9].  With five
    entries ([calm] four times, then [joy]) the output for "happy" is
    again 0 where the claim gives 0.4. *)
Theorem stable_emotions_newest_entry_unweighted :
  (let run := feed [Some calm; Some calm; Some joy] init in
   let out := default [] (run.1 !! 2%nat) in
   emotion_history run.2 = [calm; calm; joy]
   /\ get out "happy" 0 == 0
   /\ spec_weighted_average (map (fun h => get h "happy" 0) [calm; calm; joy])
      == 4 # 9)
  /\
  (let run := feed [Some calm; Some calm; Some calm; Some calm; Some joy] init in
   let out := default [] (run.1 !! 4%nat) in
   emotion_history run.2 = [calm; calm; calm; calm; joy]
   /\ get out "happy" 0 == 0
   /\ spec_weighted_average
        (map (fun h => get h "happy" 0) [calm; calm; calm; calm; joy])
      == 0.4).
Proof. vm_compute. repeat split; reflexivity. Qed.

(** C7 (the code departs from the claim).  After one [rage] vector, the
    fourth consecutive [joy] vector is stabilized to happy = 0.9,
    angry = 0.1, not to [joy]: the history is [rage; joy; joy; joy; joy]
    and the weights fall on its four oldest entries. *)
Theorem stable_emotions_four_repeats_keep_stale_entry :
  let run := feed [Some rage; Some joy; Some joy; Some joy; Some joy] init in
  let out := default [] (run.1 !! 4%nat) in
  emotion_history run.2 = [rage; joy; joy; joy; joy]
  /\ get out "happy" 0 == 0.9
  /\ get out "angry" 0 == 0.1
  /\ ~ get out "happy" 0 == get joy "happy" 0.
Proof. vm_compute. repeat split; try reflexivity. discriminate. Qed.

(** *** A repeated input *)

Lemma smooth_label_repeat (n : nat) (v : dict) (k : string) :
  (3 <= n <= 5)%nat -> smooth_label (replicate n v) k == get v k 0.
Proof.
  intros Hn.
  assert (n = 3 \/ n = 4 \/ n = 5)%nat as [-> | [-> | ->]] by lia;
    unfold smooth_label, weights_for, last_n, sum; simpl; field.
Qed.

Lemma stable_emotions_history (v : dict) (s : detector) :
  truthy (Some v) = true ->
  emotion_history (_get_stable_emotions (Some v) s).2
  = deque_append 5 (emotion_history s) v.
Proof.
  destruct v as [|kv v]; [done|]. intros _. unfold _get_stable_emotions.
  by destruct (3 <=? length _)%nat.
Qed.

Lemma drop_last_app {A} (n : nat) (l l' : list A) :
  drop (length (drop (length l - n) l ++ l') - n) (drop (length l - n) l ++ l')
  = drop (length (l ++ l') - n) (l ++ l').
Proof.
  rewrite <- (drop_app_le l l') by lia.
  rewrite drop_drop. f_equal.
  rewrite length_drop, !length_app. lia.
Qed.

(** The history after [m + 1] copies of [v]: the last five entries of the
    old history followed by the copies. *)
Lemma feed_repeat_history (m : nat) (v : dict) (s : detector) :
  truthy (Some v) = true ->
  emotion_history (feed (replicate (S m) (Some v)) s).2
  = drop (length (emotion_history s ++ replicate (S m) v) - 5)
         (emotion_history s ++ replicate (S m) v).
Proof.
  intros Hv. revert s. induction m as [|m IH]; intros s.
  - change (replicate 1 (Some v)) with [Some v]. cbn [feed].
    destruct (_get_stable_emotions (Some v) s) as [out s'] eqn:E. cbn [snd].
    assert (s' = (_get_stable_emotions (Some v) s).2) as -> by by rewrite E.
    by rewrite stable_emotions_history.
  - change (replicate (S (S m)) (Some v))
      with (Some v :: replicate (S m) (Some v)).
    cbn [feed].
    destruct (_get_stable_emotions (Some v) s) as [out s'] eqn:E.
    destruct (feed (replicate (S m) (Some v)) s') as [outs s''] eqn:F.
    cbn [snd].
    assert (s'' = (feed (replicate (S m) (Some v)) s').2) as -> by by rewrite F.
    rewrite IH.
    assert (emotion_history s' = deque_append 5 (emotion_history s) v) as ->.
    { by rewrite <- (stable_emotions_history v s Hv), E. }
    unfold deque_append. rewrite drop_last_app.
    by rewrite <- app_assoc.
Qed.

(** From any detector, the call that follows four or more copies of [v],
    fed [v] once more, returns [v]: the same labels with equal values. *)
Lemma stable_emotions_five_repeats (m : nat) (v : dict) (s : detector) :
  truthy (Some v) = true -> (4 <= m)%nat ->
  let out := (_get_stable_emotions (Some v)
                (feed (replicate m (Some v)) s).2).1 in
  keys out = keys v /\ forall k, get out k 0 == get v k 0.
Proof.
  intros Hv Hm. destruct m as [|m]; [lia|].
  pose proof (feed_repeat_history m v s Hv) as Hh.
  set (s1 := (feed (replicate (S m) (Some v)) s).2) in *.
  assert (deque_append 5 (emotion_history s1) v = replicate 5 v) as Hd.
  { rewrite Hh. unfold deque_append. rewrite drop_last_app.
    rewrite <- app_assoc, !length_app, length_replicate. simpl length.
    rewrite drop_app_ge by lia.
    change (replicate (S m) v ++ [v]) with (replicate (S m) v ++ replicate 1 v).
    rewrite <- replicate_add, drop_replicate. f_equal. lia. }
  destruct v as [|kv v]; [done|].
  unfold _get_stable_emotions. rewrite Hd, length_replicate.
  cbn [Nat.leb fst]. split.
  - unfold keys. by rewrite <- list_fmap_compose.
  - intros k. rewrite get_smoothed.
    destruct (item (kv :: v) k) as [x|] eqn:E.
    + apply (smooth_label_repeat 5). lia.
    + by rewrite get_item, E.
Qed.

(** From a fresh detector every call of a run of copies of [v] returns
    [v]. *)
Lemma stable_emotions_fresh_repeats (m : nat) (v : dict) :
  truthy (Some v) = true ->
  let out := (_get_stable_emotions (Some v)
                (feed (replicate m (Some v)) init).2).1 in
  keys out = keys v /\ forall k, get out k 0 == get v k 0.
Proof.
  intros Hv.
  assert (exists n, (n <= 5)%nat /\
            deque_append 5 (emotion_history (feed (replicate m (Some v)) init).2) v
            = replicate (S n) v /\ (S n <= 5)%nat) as (n & _ & Hd & Hn).
  { destruct m as [|m].
    - exists 0%nat. by repeat split; try lia.
    - rewrite (feed_repeat_history m v init Hv). simpl emotion_history.
      unfold deque_append. rewrite drop_last_app. rewrite app_nil_l.
      change (replicate (S m) v ++ [v]) with (replicate (S m) v ++ replicate 1 v).
      rewrite <- replicate_add, length_replicate, drop_replicate.
      exists (S m + 1 - (S m + 1 - 5) - 1)%nat.
      split; [lia|]. split; [f_equal; lia | lia]. }
  destruct v as [|kv v]; [done|].
  unfold _get_stable_emotions. rewrite Hd, length_replicate.
  destruct (3 <=? S n)%nat eqn:E3; cbn [fst].
  - apply Nat.leb_le in E3. split.
    + unfold keys. by rewrite <- list_fmap_compose.
    + intros k. rewrite get_smoothed.
      destruct (item (kv :: v) k) as [x|] eqn:E.
      * apply (smooth_label_repeat (S n)). lia.
      * by rewrite get_item, E.
  - done.
Qed.

(** *** Absent input *)

Lemma stable_emotions_absent (raw : option dict) (s : detector) :
  truthy raw = false ->
  _get_stable_emotions raw s
  = (if truthy (last_valid_emotions s)
     then default _get_neutral_emotions (last_valid_emotions s)
     else _get_neutral_emotions, s).
Proof. by destruct raw as [[|kv d]|]. Qed.

(** A vector that is present becomes the last valid one, and the
    stabilized vector has as many entries as the input. *)
Lemma stable_emotions_present (raw : option dict) (s : detector) :
  truthy raw = true ->
  last_valid_emotions (_get_stable_emotions raw s).2
  = Some (_get_stable_emotions raw s).1
  /\ truthy (Some (_get_stable_emotions raw s).1) = true.
Proof.
  destruct raw as [[|kv d]|]; try discriminate. intros _.
  unfold _get_stable_emotions.
  by destruct (3 <=? length _)%nat.
Qed.

(** The stored vector is never an empty dict, and it is the output of the
    latest call that had an input. *)
Lemma last_valid_after_feed (raws : list (option dict)) (s : detector) :
  (last_valid_emotions s = None \/ truthy (last_valid_emotions s) = true) ->
  last_valid_emotions (feed raws s).2
  = last_stabilized raws s (last_valid_emotions s)
  /\ (last_valid_emotions (feed raws s).2 = None
      \/ truthy (last_valid_emotions (feed raws s).2) = true).
Proof.
  revert s. induction raws as [|raw raws IH]; intros s Hs; simpl; [done|].
  destruct (_get_stable_emotions raw s) as [out s'] eqn:E.
  destruct (feed raws s') as [outs s''] eqn:F. simpl.
  assert (s'' = (feed raws s').2) as -> by by rewrite F.
  destruct (truthy raw) eqn:T.
  - destruct (stable_emotions_present raw s T) as [Hv Hne].
    rewrite E in Hv, Hne. simpl in Hv, Hne.
    rewrite <- Hv. apply IH. right. by rewrite Hv.
  - rewrite (stable_emotions_absent raw s T) in E.
    injection E as _ <-. by apply IH.
Qed.

Lemma last_stabilized_absent (raws : list (option dict)) (s : detector)
    (acc : option dict) :
  forallb (fun r => negb (truthy r)) raws = true ->
  last_stabilized raws s acc = acc.
Proof.
  revert s acc. induction raws as [|raw raws IH]; intros s acc H; [done|].
  simpl in H. apply andb_true_iff in H as [H1 H2].
  apply negb_true_iff in H1. simpl.
  rewrite (stable_emotions_absent raw s H1), H1. by apply IH.
Qed.

(** C4.  After any run from a fresh detector, a call without input (no
    dict, or an empty one) returns the output of the latest call that had
    an input, or the neutral prior when there was none (in particular
    when every earlier call was without input), and leaves the detector,
    its history included, as it was.  The prior is neutral 0.60,
    happy 0.15 and 0.05 for the five other labels, and sums to 1. *)
Theorem stable_emotions_null_input (raws : list (option dict))
    (raw : option dict) :
  truthy raw = false ->
  let s := (feed raws init).2 in
  _get_stable_emotions raw s
  = (default _get_neutral_emotions (last_stabilized raws init None), s)
  /\ (forallb (fun r => negb (truthy r)) raws = true ->
      (_get_stable_emotions raw s).1 = _get_neutral_emotions)
  /\ _get_neutral_emotions
     = [ ("angry"%string, 0.05); ("disgust"%string, 0.05);
         ("fear"%string, 0.05); ("happy"%string, 0.15);
         ("sad"%string, 0.05); ("surprise"%string, 0.05);
         ("neutral"%string, 0.60) ]
  /\ sum (values _get_neutral_emotions) == 1.
Proof.
  intros Hraw s.
  destruct (last_valid_after_feed raws init (or_introl eq_refl)) as [Hlast Hne].
  fold s in Hlast, Hne. simpl in Hlast.
  assert (_get_stable_emotions raw s
          = (default _get_neutral_emotions (last_stabilized raws init None), s))
    as Hout.
  { rewrite (stable_emotions_absent raw s Hraw), <- Hlast.
    destruct Hne as [-> | ->]; [done|].
    by destruct (last_valid_emotions s). }
  split; [exact Hout|]. split; [|split; [reflexivity | by vm_compute]].
  intros Hall. rewrite Hout. simpl.
  by rewrite (last_stabilized_absent raws init None Hall).
Qed.

Lemma stable_emotions_null_input_witness :
  _get_stable_emotions None (feed [Some calm; Some joy; None] init).2
  = (joy, (feed [Some calm; Some joy; None] init).2).
Proof.
  exact (proj1 (stable_emotions_null_input [Some calm; Some joy; None] None
                  eq_refl)).
Defined.

End StabilizerProperties.

Section NegativeScore.
Import Py.

(** C5 as stated fails for [calculate_negative_score] of [utils.py]: on a
    mapping that is all "sad" it returns 1, and the weighted formula 0.4. *)
Lemma utils_negative_score_unweighted :
  let d : dict := [("sad"%string, 1)] in
  ~ Utils.calculate_negative_score d
    == 0.4 * get d "sad" 0 + 0.3 * get d "angry" 0
       + 0.2 * get d "fear" 0 + 0.1 * get d "disgust" 0.
Proof. vm_compute. discriminate. Qed.

(** C5, amended.  For every emotion mapping, with missing labels read as
    0: [_calculate_negative_score] of the face detector is
    0.4 sad + 0.3 angry + 0.2 fear + 0.1 disgust, and
    [calculate_negative_score] of [utils.py] is the plain sum
    angry + disgust + fear + sad. *)
Theorem negative_score_formulas (d : dict) :
  let value k := default 0 (item d k) in
  FaceEmotion._calculate_negative_score d
  == 0.4 * value "sad"%string + 0.3 * value "angry"%string
     + 0.2 * value "fear"%string + 0.1 * value "disgust"%string
  /\ Utils.calculate_negative_score d
     == value "angry"%string + value "disgust"%string
        + value "fear"%string + value "sad"%string.
Proof.
  intros value. unfold value.
  unfold FaceEmotion._calculate_negative_score, Utils.calculate_negative_score,
    sum.
  rewrite <- !get_item. simpl. split; ring.
Qed.

End NegativeScore.

Section SessionAggregates.
Import Py Utils.

(** C9.  On the empty series the quality score is 0 and the analytics are
    the empty result; both functions are total, and the analytics are the
    empty result for no other series. *)
Theorem empty_session_aggregates :
  calculate_session_quality_score [] = 0
  /\ calculate_session_analytics [] = EmptyAnalytics
  /\ forall df, calculate_session_analytics df = EmptyAnalytics <-> df = [].
Proof.
  split; [done|]. split; [done|].
  intros [|r df]; split; try done.
Qed.

End SessionAggregates.

Section LocalizerProperties.
Import Py FaceEmotion Localizer.

Lemma Qlt_bool_iff (a b : Q) : Qlt_bool a b = true <-> a < b.
Proof.
  unfold Qlt_bool. rewrite negb_true_iff, <- not_true_iff_false, Qle_bool_iff.
  split; [apply Qnot_le_lt | apply Qlt_not_le].
Qed.

Lemma face_ok_iff (h w : Z) (face : box) :
  face_ok h w face = true <->
  (80 < bw face)%Z /\ (80 < bh face)%Z /\ (0 < bx face)%Z /\ (0 < by_ face)%Z
  /\ (bx face + bw face < w)%Z /\ (by_ face + bh face < h)%Z
  /\ inject_Z (bw face) < inject_Z w * 0.8
  /\ inject_Z (bh face) < inject_Z h * 0.8.
Proof.
  destruct face as [x y fw fh]. unfold face_ok. simpl.
  rewrite !andb_true_iff, !Z.ltb_lt, !Qlt_bool_iff. tauto.
Qed.

(** A box that spans 90% or more of a frame dimension never passes. *)
Lemma face_ok_rejects_ninety_percent (h w : Z) (face : box) :
  inject_Z w * 0.9 <= inject_Z (bw face)
  \/ inject_Z h * 0.9 <= inject_Z (bh face) ->
  face_ok h w face = false.
Proof.
  intros H. apply not_true_iff_false. rewrite face_ok_iff.
  intros (Hw & Hh & _ & _ & _ & _ & Hfw & Hfh).
  assert (80 < inject_Z (bw face)) by (change 80 with (inject_Z 80); by rewrite <- Zlt_Qlt).
  assert (80 < inject_Z (bh face)) by (change 80 with (inject_Z 80); by rewrite <- Zlt_Qlt).
  destruct H; lra.
Qed.

(** C6 as stated fails whatever the minimum size is taken to be: on a
    640x480 frame the code discards the box (0, 0, 100, 100), which lies
    inside the frame and spans under 80% of it, and keeps the box
    (1, 1, 100, 100) of the same size. *)
Lemma face_filter_differs_from_spec :
  ~ exists min_size, forall h w face,
      face_ok h w face = negb (spec_discards min_size h w face).
Proof.
  intros [m H].
  pose proof (H 480 640 (Box 0 0 100 100))%Z as H1.
  pose proof (H 480 640 (Box 1 1 100 100))%Z as H2.
  unfold spec_discards in H1, H2. cbn in H1, H2.
  destruct (100 <? m)%Z; cbn in H1, H2; discriminate.
Qed.

(** C6, amended.  The filter keeps, in their order, exactly the candidates
    with width > 80 and height > 80, x > 0 and y > 0, x + width below the
    frame width and y + height below the frame height, and width and
    height below 80% of the frame's; a box that touches the frame border,
    is exactly 80 wide or high, or spans exactly 80% is discarded too.  On
    a 640x480 frame a box of 90% of the frame (576x432) is rejected
    wherever it lies, a box of 50% (320x240) is accepted exactly when it
    lies strictly inside the frame, and the centred one is the box
    returned by a fresh detector. *)
Theorem valid_faces_characterised (faces : list box) (h w : Z) (face : box) :
  (face ∈ valid_faces faces h w <->
   face ∈ faces
   /\ (80 < bw face)%Z /\ (80 < bh face)%Z
   /\ (0 < bx face)%Z /\ (0 < by_ face)%Z
   /\ (bx face + bw face < w)%Z /\ (by_ face + bh face < h)%Z
   /\ inject_Z (bw face) < inject_Z w * 0.8
   /\ inject_Z (bh face) < inject_Z h * 0.8)
  /\ valid_faces faces h w `sublist_of` faces
  /\ (forall x y, face_ok 480 640 (Box x y 576 432) = false)
  /\ (forall x y, face_ok 480 640 (Box x y 320 240) = true
                  <-> (0 < x < 320)%Z /\ (0 < y < 240)%Z)
  /\ (_select_best_face [Box 160 120 320 240] (480, 640)%Z init).1
     = Some (Box 160 120 320 240).
Proof.
  split; [|split; [|split; [|split]]].
  - unfold valid_faces. rewrite list_elem_of_filter, face_ok_iff. tauto.
  - apply sublist_filter.
  - intros x y. apply face_ok_rejects_ninety_percent. left.
    unfold Qle. simpl. lia.
  - intros x y. rewrite face_ok_iff. simpl.
    split; [intros (_ & _ & ? & ? & ? & ? & _); lia|].
    intros [? ?]. repeat split; try lia; reflexivity.
  - reflexivity.
Qed.

End LocalizerProperties.

Section FallbackProperties.
Import Py Fallback.
Variables np_sin np_cos : Q -> Q.

Lemma max2_floor (x : Q) : 0.01 <= max2 0.01 x.
Proof.
  unfold max2. destruct (Qlt_bool 0.01 x) eqn:E; [|lra].
  apply Qlt_bool_iff in E. lra.
Qed.

(** The first entry found for a label is one of the entries. *)
Lemma item_positive (d : dict) (label : string) :
  Forall (fun kv => 0 < kv.2) d -> label ∈ keys d ->
  exists v, item d label = Some v /\ 0 < v.
Proof.
  induction d as [|[k v] d IH]; intros Hd Hin; [by apply elem_of_nil in Hin|].
  apply Forall_cons in Hd as [Hv Hd]. simpl.
  destruct (String.eqb k label) eqn:E; [by exists v|].
  apply IH; [done|]. unfold keys in Hin. simpl in Hin.
  apply elem_of_cons in Hin as [->|Hin]; [|done].
  by rewrite String.eqb_refl in E.
Qed.

(** Seven weights floored at 0.01 have a positive total, and dividing by
    it gives positive values that sum to 1. *)
Lemma normalised_weights (k1 k2 k3 k4 k5 k6 k7 : string) (a b c d e f g : Q) :
  0.01 <= a -> 0.01 <= b -> 0.01 <= c -> 0.01 <= d -> 0.01 <= e ->
  0.01 <= f -> 0.01 <= g ->
  let raw : dict := [(k1, a); (k2, b); (k3, c); (k4, d); (k5, e); (k6, f); (k7, g)] in
  let total := sum (values raw) in
  let out : dict := map (fun kv => (kv.1, kv.2 / total)) raw in
  Qlt_bool 0 total = true
  /\ sum (values out) == 1
  /\ Forall (fun kv => 0 < kv.2) out.
Proof.
  intros Ha Hb Hc Hd He Hf Hg raw total out.
  assert (total == a + b + c + d + e + f + g) as Ht
    by (unfold total, raw, sum; simpl; ring).
  assert (0 < total) as Hpos by lra.
  split; [by apply Qlt_bool_iff|]. split.
  - unfold out, raw, sum. simpl. 
    transitivity ((a + b + c + d + e + f + g) / total); [field; lra|].
    rewrite <- Ht. field. lra.
  - unfold out, raw. simpl.
    repeat (apply Forall_cons; split; [apply Qlt_shift_div_l; lra|]).
    apply Forall_nil_2.
Qed.

Lemma generate_face_emotions_emotions (rnd : nat) (g : generator) :
  (generate_face_emotions np_sin np_cos rnd g).1.1
  = let time_mod := inject_Z (Z.of_nat (S (time_factor g))) * 0.1 in
    let emotions := raw_emotions np_sin np_cos (current_scenario g) time_mod in
    let total := sum (values emotions) in
    if Qlt_bool 0 total
    then map (fun kv => (kv.1, kv.2 / total)) emotions
    else neutral_fallback.
Proof.
  unfold generate_face_emotions.
  by destruct (20 <? S (scenario_timer g))%nat.
Qed.

(** C3.  In every scenario, at every tick and for every value the sine and
    cosine terms take, the unnormalised weights are at least 0.01, and the
    returned mapping has seven entries, gives each of the seven labels a
    strictly positive value, and sums to 1 (so within 1e-6 of it). *)
Theorem generate_face_emotions_distribution (rnd : nat) (g : generator) :
  let time_mod := inject_Z (Z.of_nat (S (time_factor g))) * 0.1 in
  let emotions := (generate_face_emotions np_sin np_cos rnd g).1.1 in
  Forall (fun kv => 0.01 <= kv.2)
         (raw_emotions np_sin np_cos (current_scenario g) time_mod)
  /\ length emotions = 7%nat
  /\ Forall (fun label => exists v, item emotions label = Some v /\ 0 < v)
            EMOTIONS
  /\ sum (values emotions) == 1
  /\ Qabs (sum (values emotions) - 1) <= 0.000001.
Proof.
  intros time_mod emotions.
  assert (Forall (fun kv => 0.01 <= kv.2)
            (raw_emotions np_sin np_cos (current_scenario g) time_mod)
          /\ length emotions = 7%nat
          /\ Forall (fun label => exists v, item emotions label = Some v /\ 0 < v)
               EMOTIONS
          /\ sum (values emotions) == 1) as (H1 & H2 & H3 & H4).
  { unfold emotions. rewrite generate_face_emotions_emotions. fold time_mod.
    cbv zeta. unfold raw_emotions.
    destruct (String.eqb (current_scenario g) "happy");
      [|destruct (String.eqb (current_scenario g) "stressed")].
    all: match goal with
         | |- context [sum (values [(?k1, ?a); (?k2, ?b); (?k3, ?c); (?k4, ?d);
                                    (?k5, ?e); (?k6, ?f); (?k7, ?g)])] =>
             destruct (normalised_weights k1 k2 k3 k4 k5 k6 k7 a b c d e f g)
               as (Ht & Hs & Hp); try apply max2_floor
         end.
    all: cbv zeta in Ht, Hs, Hp; rewrite Ht.
    all: split; [repeat (apply Forall_cons; split; [apply max2_floor|]);
                 apply Forall_nil_2|].
    all: split; [reflexivity|]. 
    all: split; [|exact Hs].
    all: unfold EMOTIONS;
      repeat (apply Forall_cons; split;
              [apply item_positive; [exact Hp|]; unfold keys; simpl;
               repeat first [apply list_elem_of_here | apply list_elem_of_further]
              |]);
      apply Forall_nil_2. }
  repeat split; try done.
  rewrite H4. by vm_compute.
Qed.

(** *** Scenario changes *)

Lemma generate_face_emotions_quiet (rnd : nat) (g : generator) :
  (scenario_timer g < 20)%nat ->
  (generate_face_emotions np_sin np_cos rnd g).1.2 = None
  /\ scenario_timer (generate_face_emotions np_sin np_cos rnd g).2
     = S (scenario_timer g)
  /\ current_scenario (generate_face_emotions np_sin np_cos rnd g).2
     = current_scenario g.
Proof.
  intros Ht. unfold generate_face_emotions.
  destruct (20 <? S (scenario_timer g))%nat eqn:E; [|done].
  apply Nat.ltb_lt in E. lia.
Qed.

Lemma generate_face_emotions_change (rnd : nat) (g : generator) :
  (20 <= scenario_timer g)%nat ->
  (generate_face_emotions np_sin np_cos rnd g).1.2 = Some (random_choice rnd)
  /\ scenario_timer (generate_face_emotions np_sin np_cos rnd g).2 = 0%nat
  /\ current_scenario (generate_face_emotions np_sin np_cos rnd g).2
     = random_choice rnd.
Proof.
  intros Ht. unfold generate_face_emotions.
  destruct (20 <? S (scenario_timer g))%nat eqn:E; [done|].
  apply Nat.ltb_ge in E. lia.
Qed.

(** While the timer stays at 20 or below nothing is drawn or printed. *)
Lemma run_quiet (n : nat) (rnd : nat -> nat) (g : generator) :
  (scenario_timer g + n <= 20)%nat ->
  (run np_sin np_cos n rnd g).1 = replicate n None
  /\ scenario_timer (run np_sin np_cos n rnd g).2 = (scenario_timer g + n)%nat
  /\ current_scenario (run np_sin np_cos n rnd g).2 = current_scenario g.
Proof.
  revert rnd g. induction n as [|n IH]; intros rnd g Ht.
  - simpl. repeat split. lia.
  - cbn [run].
    destruct (generate_face_emotions_quiet (rnd 0%nat) g) as (Hp & Hc & Hs);
      [lia|].
    destruct (generate_face_emotions np_sin np_cos (rnd 0%nat) g)
      as [[emotions printed] g'].
    simpl in Hp, Hc, Hs. subst printed.
    destruct (IH (fun i => rnd (S i)) g') as (Hl & Hc' & Hs'); [lia|].
    destruct (run np_sin np_cos n (fun i => rnd (S i)) g') as [log g''].
    simpl in *. rewrite Hl, Hc', Hs', Hc, Hs. repeat split. lia.
Qed.

Lemma run_S (n : nat) (rnd : nat -> nat) (g : generator) :
  run np_sin np_cos (S n) rnd g
  = let '(_, printed, g') := generate_face_emotions np_sin np_cos (rnd 0%nat) g in
    let '(log, g'') := run np_sin np_cos n (fun i => rnd (S i)) g' in
    (printed :: log, g'').
Proof. reflexivity. Qed.

(** The last call of a run. *)
Lemma run_snoc (n : nat) (rnd : nat -> nat) (g : generator) :
  run np_sin np_cos (S n) rnd g
  = ((run np_sin np_cos n rnd g).1
       ++ [(generate_face_emotions np_sin np_cos (rnd n)
              (run np_sin np_cos n rnd g).2).1.2],
     (generate_face_emotions np_sin np_cos (rnd n)
        (run np_sin np_cos n rnd g).2).2).
Proof.
  revert rnd g. induction n as [|n IH]; intros rnd g.
  - rewrite run_S. cbn [run fst snd app].
    by destruct (generate_face_emotions np_sin np_cos (rnd 0%nat) g)
      as [[emotions printed] g'].
  - rewrite (run_S (S n) rnd g), (run_S n rnd g).
    destruct (generate_face_emotions np_sin np_cos (rnd 0%nat) g)
      as [[emotions printed] g'].
    rewrite IH.
    by destruct (run np_sin np_cos n (fun i => rnd (S i)) g') as [log g''].
Qed.

(** The timer counts the calls modulo 21. *)
Lemma run_timer (n : nat) (rnd : nat -> nat) (g : generator) :
  (scenario_timer g <= 20)%nat ->
  scenario_timer (run np_sin np_cos n rnd g).2
  = ((scenario_timer g + n) mod 21)%nat.
Proof.
  intros Ht. induction n as [|n IH].
  - cbn [run snd]. rewrite Nat.add_0_r. symmetry. apply Nat.mod_small. lia.
  - rewrite run_snoc. cbn [snd].
    set (g' := (run np_sin np_cos n rnd g).2) in *.
    pose proof (Nat.mod_upper_bound (scenario_timer g + n) 21) as Hlt.
    pose proof (Nat.div_mod_eq (scenario_timer g + n) 21) as Hdiv.
    destruct (decide (scenario_timer g' < 20)%nat) as [Hq|Hq].
    + destruct (generate_face_emotions_quiet (rnd n) g' Hq) as (_ & -> & _).
      rewrite IH.
      apply (Nat.mod_unique _ 21 ((scenario_timer g + n) / 21)); lia.
    + destruct (generate_face_emotions_change (rnd n) g') as (_ & -> & _);
        [lia|].
      apply (Nat.mod_unique _ 21 (S ((scenario_timer g + n) / 21))); lia.
Qed.

(** From a fresh generator, call number [n + 1] draws a scenario exactly
    when [n + 1] is a multiple of 21. *)
Lemma run_draws_every_21 (n : nat) (rnd : nat -> nat) :
  (generate_face_emotions np_sin np_cos (rnd n)
     (run np_sin np_cos n rnd init).2).1.2
  = if ((n + 1) mod 21 =? 0)%nat then Some (random_choice (rnd n)) else None.
Proof.
  pose proof (run_timer n rnd init (Nat.le_0_l 20)) as Ht.
  change (scenario_timer init + n)%nat with n in Ht.
  set (g := (run np_sin np_cos n rnd init).2) in *.
  pose proof (Nat.mod_upper_bound n 21) as Hlt.
  pose proof (Nat.div_mod_eq n 21) as Hdiv.
  destruct (decide (scenario_timer g < 20)%nat) as [Hq|Hq].
  - destruct (generate_face_emotions_quiet (rnd n) g Hq) as (-> & _ & _).
    assert ((n + 1) mod 21 = S (n mod 21))%nat as ->.
    { symmetry. apply (Nat.mod_unique _ 21 (n / 21)); lia. }
    done.
  - destruct (generate_face_emotions_change (rnd n) g) as (-> & _ & _); [lia|].
    assert ((n + 1) mod 21 = 0)%nat as ->.
    { symmetry. apply (Nat.mod_unique _ 21 (S (n / 21))); lia. }
    done.
Qed.

(** C8 (the code departs from the claim).  From a fresh generator the
    first twenty calls draw and print nothing: after the twentieth the
    scenario is still "normal" and the timer is 20.  The first draw is made
    by call 21, which resets the timer; the scenario it sets is one of the
    three. *)
Theorem scenario_first_changes_on_call_21 (rnd : nat -> nat) :
  let g20 := (run np_sin np_cos 20 rnd init).2 in
  (run np_sin np_cos 20 rnd init).1 = replicate 20 None
  /\ current_scenario g20 = "normal"%string
  /\ scenario_timer g20 = 20%nat
  /\ (run np_sin np_cos 21 rnd init).1
     = replicate 20 None ++ [Some (random_choice (rnd 20%nat))]
  /\ scenario_timer (run np_sin np_cos 21 rnd init).2 = 0%nat
  /\ current_scenario (run np_sin np_cos 21 rnd init).2
     = random_choice (rnd 20%nat)
  /\ random_choice (rnd 20%nat) ∈ scenarios.
Proof.
  destruct (run_quiet 20 rnd init) as (Hl & Ht & Hs); [apply Nat.le_refl|].
  change (scenario_timer init + 20)%nat with 20%nat in Ht.
  change (current_scenario init) with "normal"%string in Hs.
  cbv zeta. rewrite (run_snoc 20 rnd init).
  generalize dependent (run np_sin np_cos 20 rnd init). intros r Hl Ht Hs.
  destruct (generate_face_emotions_change (rnd 20%nat) r.2) as (Hp & Ht' & Hs');
    [lia|].
  cbn [fst snd]. rewrite Hl, Hp, Ht', Hs'.
  repeat split; try reflexivity; try assumption.
  unfold random_choice. apply list_elem_of_In, nth_In.
  apply Nat.mod_upper_bound. discriminate.
Qed.

End FallbackProperties.

Section EventDetectorProperties.
Import Py App.

(** Whether the STRESS branch fires: threshold met, the incremented
    counter at 3 or more, and the cooldown elapsed. *)
Lemma tick_stress (face fused : dict) (now stress : Q) (st : session_state) :
  item fused "stress" = Some stress ->
  let fires :=
    Qle_bool 0.85 stress && (3 <=? S (stress_counter st))%nat
    && Qle_bool 10 (now - last_shot (last_screenshot_time st) "STRESS") in
  let st' := (tick face fused now st).1 in
  let ev := (tick face fused now st).2 in
  stress_counter st'
  = (if fires then 0 else if Qle_bool 0.85 stress then S (stress_counter st) else 0)%nat
  /\ last_screenshot_time st' !! "STRESS"%string
     = (if fires then Some now else last_screenshot_time st !! "STRESS"%string)
  /\ (if fires then ev = Some (Event "STRESS" stress)
      else forall e, ev = Some e -> ev_type e <> "STRESS"%string)
  /\ screenshots st' = screenshots st ++ option_list ev.
Proof.
  intros Hs. unfold tick. rewrite Hs. cbv zeta.
  destruct (Qle_bool 0.85 stress) eqn:E1;
    destruct (3 <=? S (stress_counter st))%nat eqn:E2;
    destruct (Qle_bool 10 (now - last_shot (last_screenshot_time st) "STRESS"))
      eqn:E3; cbn [andb];
    repeat match goal with
      | |- context [if ?b then _ else _] => destruct b eqn:?
      end;
    cbn [fst snd stress_counter last_screenshot_time screenshots Nat.eqb andb];
    rewrite ?E1; cbn [andb];
    repeat split;
    rewrite ?lookup_insert_ne by done; rewrite ?lookup_insert_eq; try done;
    try (intros e [= <-]; done).
Qed.

Lemma stress_events_snoc (log : list event) (ev : option event) :
  stress_events (log ++ option_list ev)
  = stress_events log ++ stress_events (option_list ev).
Proof. apply filter_app. Qed.

(** A tick at or above the threshold that does not fire. *)
Lemma tick_stress_hold (face fused : dict) (now stress : Q) (st : session_state) :
  item fused "stress" = Some stress ->
  Qle_bool 0.85 stress = true ->
  (3 <=? S (stress_counter st))%nat
  && Qle_bool 10 (now - last_shot (last_screenshot_time st) "STRESS") = false ->
  let st' := (tick face fused now st).1 in
  stress_counter st' = S (stress_counter st)
  /\ last_shot (last_screenshot_time st') "STRESS"
     = last_shot (last_screenshot_time st) "STRESS"
  /\ stress_events (screenshots st') = stress_events (screenshots st).
Proof.
  intros Hs H1 H2 st'.
  destruct (tick_stress face fused now stress st Hs) as (Hc & Hl & He & Hlog).
  fold st' in Hc, Hl, Hlog. rewrite H1 in Hc, Hl, He.
  rewrite andb_true_l, H2 in Hc, Hl, He.
  split; [done|]. split; [unfold last_shot; by rewrite Hl|].
  rewrite Hlog, stress_events_snoc.
  destruct (tick face fused now st).2 as [e|] eqn:E; [|by rewrite app_nil_r].
  specialize (He e eq_refl). change (option_list (Some e)) with [e].
  unfold stress_events. rewrite (filter_cons_False _ e []) by done.
  by rewrite filter_nil, app_nil_r.
Qed.

(** A tick that fires. *)
Lemma tick_stress_fire (face fused : dict) (now stress : Q) (st : session_state) :
  item fused "stress" = Some stress ->
  Qle_bool 0.85 stress = true ->
  (3 <=? S (stress_counter st))%nat
  && Qle_bool 10 (now - last_shot (last_screenshot_time st) "STRESS") = true ->
  let st' := (tick face fused now st).1 in
  stress_counter st' = 0%nat
  /\ last_shot (last_screenshot_time st') "STRESS" = now
  /\ stress_events (screenshots st')
     = stress_events (screenshots st) ++ [Event "STRESS" stress].
Proof.
  intros Hs H1 H2 st'.
  destruct (tick_stress face fused now stress st Hs) as (Hc & Hl & He & Hlog).
  fold st' in Hc, Hl, Hlog. rewrite H1 in Hc, Hl, He.
  rewrite andb_true_l, H2 in Hc, Hl, He.
  split; [done|]. split; [unfold last_shot; by rewrite Hl|].
  by rewrite Hlog, stress_events_snoc, He.
Qed.

Lemma last_shot_empty (key : string) : last_shot ∅ key = 0.
Proof. unfold last_shot. by rewrite lookup_empty. Qed.

(** C2.  For every state of the detector and every tick that carries a
    stress value: a stress below 0.85 resets the counter; a stress of 0.85
    or more that does not fire increments it; the tick logs a STRESS event
    exactly when the stress is 0.85 or more, the incremented counter is 3
    or more ("reaches 3": the counter keeps growing while a cooldown
    blocks it) and at least 10 time units passed since STRESS last fired
    (time 0 when it never did); the event then carries the current stress,
    the counter is back at 0 and the last-fire time is the current time;
    at most one event is logged per tick.  From the initial state, three
    ticks at stress 0.9 with the third at time 10 or later log exactly one
    STRESS event, of score 0.9; two such ticks log none; three more such
    ticks, the last less than 10 time units after the first firing, log no
    second one. *)
Theorem stress_event_rule :
  (forall (face fused : dict) (now stress : Q) (st : session_state),
     item fused "stress" = Some stress ->
     let fires :=
       0.85 <= stress /\ (3 <= S (stress_counter st))%nat
       /\ 10 <= now - last_shot (last_screenshot_time st) "STRESS" in
     let st' := (tick face fused now st).1 in
     let ev := (tick face fused now st).2 in
     (stress < 0.85 -> stress_counter st' = 0%nat)
     /\ (0.85 <= stress -> ~ fires -> stress_counter st' = S (stress_counter st))
     /\ ((exists e, ev = Some e /\ ev_type e = "STRESS"%string) <-> fires)
     /\ (fires ->
         ev = Some (Event "STRESS" stress) /\ stress_counter st' = 0%nat
         /\ last_screenshot_time st' !! "STRESS"%string = Some now)
     /\ (~ fires ->
         last_screenshot_time st' !! "STRESS"%string
         = last_screenshot_time st !! "STRESS"%string)
     /\ screenshots st' = screenshots st ++ option_list ev)
  /\ (forall r1 r2 r3 : refresh,
        item r1.1.2 "stress" = Some 0.9 -> item r2.1.2 "stress" = Some 0.9 ->
        item r3.1.2 "stress" = Some 0.9 -> 10 <= r3.2 ->
        stress_events (screenshots (run [r1; r2; r3] init))
        = [Event "STRESS" 0.9])
  /\ (forall r1 r2 : refresh,
        item r1.1.2 "stress" = Some 0.9 -> item r2.1.2 "stress" = Some 0.9 ->
        stress_events (screenshots (run [r1; r2] init)) = [])
  /\ (forall r1 r2 r3 r4 r5 r6 : refresh,
        item r1.1.2 "stress" = Some 0.9 -> item r2.1.2 "stress" = Some 0.9 ->
        item r3.1.2 "stress" = Some 0.9 -> item r4.1.2 "stress" = Some 0.9 ->
        item r5.1.2 "stress" = Some 0.9 -> item r6.1.2 "stress" = Some 0.9 ->
        10 <= r3.2 -> r6.2 - r3.2 < 10 ->
        stress_events (screenshots (run [r1; r2; r3; r4; r5; r6] init))
        = [Event "STRESS" 0.9]).
Proof.
  split; [|split; [|split]].
  - intros face fused now stress st Hs fires st' ev.
    destruct (tick_stress face fused now stress st Hs) as (Hc & Hl & He & Hlog).
    fold st' in Hc, Hl, Hlog. fold ev in He, Hlog.
    set (b := Qle_bool 0.85 stress && (3 <=? S (stress_counter st))%nat
              && Qle_bool 10 (now - last_shot (last_screenshot_time st) "STRESS"))
      in *.
    assert (b = true <-> fires) as Hb.
    { unfold b, fires. rewrite !andb_true_iff, !Qle_bool_iff, Nat.leb_le. tauto. }
    destruct b.
    + assert fires as Hf by by apply Hb.
      split; [intros Hlt; destruct Hf as [Hf _]; lra|].
      split; [by intros _ Hn|].
      split; [split; [done | intros _; by exists (Event "STRESS" stress)]|].
      split; [done|]. split; [by intros Hn|]. exact Hlog.
    + assert (~ fires) as Hf by (intros Hf; apply Hb in Hf; discriminate).
      split.
      { intros Hlt. destruct (Qle_bool 0.85 stress) eqn:E; [|done].
        apply Qle_bool_iff in E. lra. }
      split.
      { intros Hge _. destruct (Qle_bool 0.85 stress) eqn:E; [done|].
        apply Qle_bool_iff in Hge. congruence. }
      split.
      { split; [|done]. intros (e & Hev & Hty). by destruct (He e Hev). }
      split; [done|]. split; [done|]. exact Hlog.
  - intros [[f1 m1] t1] [[f2 m2] t2] [[f3 m3] t3]. cbn [fst snd].
    intros H1 H2 H3 Ht. cbn [run fold_left fst snd].
    destruct (tick_stress_hold f1 m1 t1 0.9 init H1 eq_refl eq_refl)
      as (C1 & L1 & E1).
    set (s1 := (tick f1 m1 t1 init).1) in *.
    destruct (tick_stress_hold f2 m2 t2 0.9 s1 H2 eq_refl) as (C2 & L2 & E2);
      [by rewrite C1|].
    set (s2 := (tick f2 m2 t2 s1).1) in *.
    destruct (tick_stress_fire f3 m3 t3 0.9 s2 H3 eq_refl) as (C3 & L3 & E3).
    { rewrite C2, C1, L2, L1. cbn [stress_counter init Nat.leb andb].
      unfold init at 1. cbn [last_screenshot_time]. rewrite last_shot_empty.
      apply Qle_bool_iff. lra. }
    by rewrite E3, E2, E1.
  - intros [[f1 m1] t1] [[f2 m2] t2]. cbn [fst snd].
    intros H1 H2. cbn [run fold_left fst snd].
    destruct (tick_stress_hold f1 m1 t1 0.9 init H1 eq_refl eq_refl)
      as (C1 & L1 & E1).
    set (s1 := (tick f1 m1 t1 init).1) in *.
    destruct (tick_stress_hold f2 m2 t2 0.9 s1 H2 eq_refl) as (C2 & L2 & E2);
      [by rewrite C1|].
    by rewrite E2, E1.
  - intros [[f1 m1] t1] [[f2 m2] t2] [[f3 m3] t3] [[f4 m4] t4] [[f5 m5] t5]
      [[f6 m6] t6]. cbn [fst snd].
    intros H1 H2 H3 H4 H5 H6 Ht Hcool. cbn [run fold_left fst snd].
    destruct (tick_stress_hold f1 m1 t1 0.9 init H1 eq_refl eq_refl)
      as (C1 & L1 & E1).
    set (s1 := (tick f1 m1 t1 init).1) in *.
    destruct (tick_stress_hold f2 m2 t2 0.9 s1 H2 eq_refl) as (C2 & L2 & E2);
      [by rewrite C1|].
    set (s2 := (tick f2 m2 t2 s1).1) in *.
    destruct (tick_stress_fire f3 m3 t3 0.9 s2 H3 eq_refl) as (C3 & L3 & E3).
    { rewrite C2, C1, L2, L1. cbn [stress_counter init Nat.leb andb].
      unfold init at 1. cbn [last_screenshot_time]. rewrite last_shot_empty.
      apply Qle_bool_iff. lra. }
    set (s3 := (tick f3 m3 t3 s2).1) in *.
    destruct (tick_stress_hold f4 m4 t4 0.9 s3 H4 eq_refl) as (C4 & L4 & E4);
      [by rewrite C3|].
    set (s4 := (tick f4 m4 t4 s3).1) in *.
    destruct (tick_stress_hold f5 m5 t5 0.9 s4 H5 eq_refl) as (C5 & L5 & E5);
      [by rewrite C4, C3|].
    set (s5 := (tick f5 m5 t5 s4).1) in *.
    destruct (tick_stress_hold f6 m6 t6 0.9 s5 H6 eq_refl) as (C6 & L6 & E6).
    { rewrite C5, C4, C3, L5, L4, L3. cbn [Nat.leb andb].
      apply not_true_iff_false. rewrite Qle_bool_iff. lra. }
    by rewrite E6, E5, E4, E3, E2, E1.
Qed.

Lemma stress_event_rule_witness :
  stress_events
    (screenshots
       (run [([("neutral"%string, 1)], [("stress"%string, 0.9)], 100);
             ([("neutral"%string, 1)], [("stress"%string, 0.9)], 101);
             ([("neutral"%string, 1)], [("stress"%string, 0.9)], 102)]
            init))
  = [Event "STRESS" 0.9].
Proof.
  apply (proj1 (proj2 stress_event_rule)); [reflexivity .. |].
  by vm_compute.
Defined.

(** C10.  When, in one tick, the STRESS branch fires and the HAPPY
    condition holds as well (dominant face label "happy", confidence 0.75
    or more, HAPPY cooldown elapsed), exactly one event is logged, it is
    the STRESS event, and the last-fire times of both STRESS and HAPPY are
    set to the current time. *)
Theorem stress_preempts_happy (face fused : dict) (now stress : Q)
    (st : session_state) :
  item fused "stress" = Some stress ->
  0.85 <= stress -> (3 <= S (stress_counter st))%nat ->
  10 <= now - last_shot (last_screenshot_time st) "STRESS" ->
  dominant face = Some "happy"%string ->
  0.75 <= get fused "confidence" 0 ->
  10 <= now - last_shot (last_screenshot_time st) "HAPPY" ->
  let st' := (tick face fused now st).1 in
  (tick face fused now st).2 = Some (Event "STRESS" stress)
  /\ screenshots st' = screenshots st ++ [Event "STRESS" stress]
  /\ last_screenshot_time st' !! "HAPPY"%string = Some now
  /\ last_screenshot_time st' !! "STRESS"%string = Some now
  /\ stress_counter st' = 0%nat.
Proof.
  intros Hs H1 H2 H3 Hd H4 H5.
  apply Qle_bool_iff in H1, H3, H4, H5. apply Nat.leb_le in H2.
  unfold tick. rewrite Hs. cbv zeta. rewrite H1, H2, H3, Hd.
  cbn [is_happy String.eqb Ascii.eqb Bool.eqb andb]. rewrite H4.
  assert (last_shot (<["STRESS"%string:=now]> (last_screenshot_time st)) "HAPPY"
          = last_shot (last_screenshot_time st) "HAPPY") as ->.
  { unfold last_shot. by rewrite lookup_insert_ne. }
  rewrite H5.
  repeat match goal with
    | |- context [if ?b then _ else _] => destruct b eqn:?
    end;
    cbn [fst snd stress_counter last_screenshot_time screenshots Nat.eqb andb
         option_list];
    rewrite ?H1; cbn [andb];
    repeat split;
    rewrite ?lookup_insert_ne by done; rewrite ?lookup_insert_eq; done.
Qed.

Lemma stress_preempts_happy_witness :
  (tick [("happy"%string, 0.9); ("neutral"%string, 0.1)]
        [("stress"%string, 0.9); ("confidence"%string, 0.9);
         ("engagement"%string, 0.5)]
        100
        {| stress_counter := 2; distraction_counter := 0;
           last_screenshot_time := ∅; screenshots := [] |}).2
  = Some (Event "STRESS" 0.9).
Proof.
  apply (stress_preempts_happy
           [("happy"%string, 0.9); ("neutral"%string, 0.1)]
           [("stress"%string, 0.9); ("confidence"%string, 0.9);
            ("engagement"%string, 0.5)]
           100 0.9);
    first [reflexivity | by vm_compute | cbn; lia].
Defined.

End EventDetectorProperties.

(** * Further properties *)

(** ** Sums, maxima and comparisons *)

Section Arithmetic.
Import Py.

Lemma fold_left_Qplus (xs : list Q) (a : Q) :
  fold_left Qplus xs a == a + fold_left Qplus xs 0.
Proof.
  revert a. induction xs as [|x xs IH]; intros a; simpl; [ring|].
  rewrite IH, (IH (0 + x)). ring.
Qed.

Lemma sum_cons (x : Q) (xs : list Q) : sum (x :: xs) == x + sum xs.
Proof. unfold sum. simpl. rewrite fold_left_Qplus. ring. Qed.

Lemma sum_app (xs ys : list Q) : sum (xs ++ ys) == sum xs + sum ys.
Proof.
  induction xs as [|x xs IH]; simpl.
  - unfold sum at 2. simpl. ring.
  - rewrite !sum_cons, IH. ring.
Qed.

Lemma sum_nonneg (xs : list Q) : Forall (fun x => 0 <= x) xs -> 0 <= sum xs.
Proof.
  induction 1 as [|x xs Hx _ IH]; [discriminate|].
  rewrite sum_cons. lra.
Qed.

Lemma sum_le_length (xs : list Q) :
  Forall (fun x => x <= 1) xs -> sum xs <= inject_Z (Z.of_nat (length xs)).
Proof.
  induction 1 as [|x xs Hx _ IH]; [discriminate|].
  rewrite sum_cons. cbn [length]. rewrite Nat2Z.inj_succ, <- Z.add_1_l, inject_Z_plus.
  change (inject_Z 1) with 1. lra.
Qed.

Lemma sum_map_mult {A} (f : A -> Q) (c : Q) (l : list A) :
  sum (map (fun a => f a * c) l) == sum (map f l) * c.
Proof.
  induction l as [|a l IH]; simpl; [reflexivity|].
  rewrite !sum_cons, IH. ring.
Qed.

Lemma sum_map_const {A} (c : Q) (l : list A) :
  sum (map (fun _ => c) l) == inject_Z (Z.of_nat (length l)) * c.
Proof.
  induction l as [|a l IH]; [reflexivity|].
  cbn [map length]. rewrite sum_cons, IH, Nat2Z.inj_succ, <- Z.add_1_l, inject_Z_plus.
  change (inject_Z 1) with 1. ring.
Qed.

Lemma sum_map_plus {A} (f g : A -> Q) (l : list A) :
  sum (map (fun a => f a + g a) l) == sum (map f l) + sum (map g l).
Proof.
  induction l as [|a l IH]; simpl; [reflexivity|].
  rewrite !sum_cons, IH. ring.
Qed.

Lemma sum_map_ext {A} (f g : A -> Q) (l : list A) :
  (forall a, a ∈ l -> f a == g a) -> sum (map f l) == sum (map g l).
Proof.
  induction l as [|a l IH]; intros H; simpl; [reflexivity|].
  assert (f a == g a) as Ha by (apply H; set_solver).
  assert (sum (map f l) == sum (map g l)) as Hl
    by (apply IH; intros; apply H; set_solver).
  rewrite !sum_cons, Ha, Hl. reflexivity.
Qed.

Lemma length_pos_Q {A} (l : list A) : l <> [] -> 0 < inject_Z (Z.of_nat (length l)).
Proof.
  destruct l; [done|]. intros _. unfold Qlt. simpl. lia.
Qed.

Lemma Qsquare_nonneg (y : Q) : 0 <= y * y.
Proof.
  destruct (Qlt_le_dec y 0).
  - assert (y * y == (- y) * (- y)) as -> by ring.
    apply Qmult_le_0_compat; lra.
  - apply Qmult_le_0_compat; lra.
Qed.

Lemma Qlt_bool_false (a b : Q) : Qlt_bool a b = false <-> b <= a.
Proof.
  unfold Qlt_bool. rewrite negb_false_iff. apply Qle_bool_iff.
Qed.

Lemma max2_spec (a b : Q) : a <= max2 a b /\ b <= max2 a b
  /\ (max2 a b = a \/ max2 a b = b).
Proof.
  unfold max2. destruct (Qlt_bool a b) eqn:E.
  - apply Qlt_bool_iff in E. split; [lra|]. split; [lra|]. by right.
  - apply Qlt_bool_false in E. split; [lra|]. split; [lra|]. by left.
Qed.

Lemma min2_spec (a b : Q) : min2 a b <= a /\ min2 a b <= b
  /\ (min2 a b = a \/ min2 a b = b).
Proof.
  unfold min2. destruct (Qlt_bool b a) eqn:E.
  - apply Qlt_bool_iff in E. split; [lra|]. split; [lra|]. by right.
  - apply Qlt_bool_false in E. split; [lra|]. split; [lra|]. by left.
Qed.

(** [max(xs, key=f)] is the first element whose key no other element
    exceeds. *)
Lemma max_fold_spec {A} (f : A -> Q) (ys pre mid : list A) (b : A) :
  Forall (fun y => f y < f b) pre -> Forall (fun y => f y <= f b) mid ->
  exists l1 l2,
    pre ++ b :: mid ++ ys
    = l1 ++ fold_left (fun best y => if Qlt_bool (f best) (f y) then y else best)
                      ys b :: l2
    /\ Forall (fun y => f y < f (fold_left (fun best y =>
                  if Qlt_bool (f best) (f y) then y else best) ys b)) l1
    /\ Forall (fun y => f y <= f (fold_left (fun best y =>
                  if Qlt_bool (f best) (f y) then y else best) ys b)) l2.
Proof.
  revert pre mid b. induction ys as [|y ys IH]; intros pre mid b Hpre Hmid.
  - exists pre, mid. by rewrite app_nil_r.
  - cbn [fold_left]. destruct (Qlt_bool (f b) (f y)) eqn:E.
    + apply Qlt_bool_iff in E.
      destruct (IH (pre ++ b :: mid) [] y) as (l1 & l2 & Heq & H1 & H2).
      * apply Forall_app. split; [|constructor].
        -- eapply Forall_impl; [exact Hpre|]. intros z Hz. simpl in Hz. lra.
        -- done.
        -- eapply Forall_impl; [exact Hmid|]. intros z Hz. simpl in Hz. lra.
      * constructor.
      * exists l1, l2. split; [|done]. rewrite <- Heq. by rewrite <- !app_assoc.
    + apply Qlt_bool_false in E.
      destruct (IH pre (mid ++ [y]) b) as (l1 & l2 & Heq & H1 & H2).
      * done.
      * apply Forall_app. split; [done|]. by constructor.
      * exists l1, l2. split; [|done]. rewrite <- Heq. by rewrite <- !app_assoc.
Qed.

Lemma max_by_spec {A} (f : A -> Q) (xs : list A) (x : A) :
  max_by f xs = Some x ->
  exists l1 l2, xs = l1 ++ x :: l2
    /\ Forall (fun y => f y < f x) l1 /\ Forall (fun y => f y <= f x) l2.
Proof.
  destruct xs as [|b ys]; [done|]. intros [= <-].
  destruct (max_fold_spec f ys [] [] b) as (l1 & l2 & Heq & H1 & H2);
    [constructor..|].
  exists l1, l2. by rewrite <- Heq.
Qed.

Lemma max_by_max {A} (f : A -> Q) (xs : list A) (x : A) :
  max_by f xs = Some x -> x ∈ xs /\ forall y, y ∈ xs -> f y <= f x.
Proof.
  intros (l1 & l2 & -> & H1 & H2)%max_by_spec. split; [set_solver|].
  intros y [Hy|Hy]%elem_of_app.
  - rewrite Forall_forall in H1. specialize (H1 y Hy). simpl in H1. lra.
  - apply elem_of_cons in Hy as [->|Hy]; [lra|].
    rewrite Forall_forall in H2. by apply H2.
Qed.

Lemma max_by_is_Some {A} (f : A -> Q) (xs : list A) :
  xs <> [] -> exists x, max_by f xs = Some x.
Proof. destruct xs; [done|]. intros _. by eexists. Qed.

End Arithmetic.

(** ** src/utils.py *)

Section UtilsProperties.
Import Py Utils.

Lemma values_map_snd (f : string * Q -> Q) (d : dict) :
  values (map (fun kv => (kv.1, f kv)) d) = map f d.
Proof. unfold values. rewrite <- list_fmap_compose. done. Qed.

Lemma keys_map_fst (f : string * Q -> Q) (d : dict) :
  keys (map (fun kv => (kv.1, f kv)) d) = keys d.
Proof. unfold keys. rewrite <- list_fmap_compose. done. Qed.





Lemma sum_bounds (xs : list Q) :
  xs <> [] -> Forall (fun x => 0 <= x <= 1) xs -> 0 <= mean xs <= 1.
Proof.
  intros Hne H. pose proof (length_pos_Q xs Hne) as Hn. unfold mean.
  assert (0 <= sum xs) as H0.
  { apply sum_nonneg. eapply Forall_impl; [exact H|]. by intros x [? ?]. }
  assert (sum xs <= inject_Z (Z.of_nat (length xs))) as H1.
  { apply sum_le_length. eapply Forall_impl; [exact H|]. by intros x [? ?]. }
  split.
  - apply Qle_shift_div_l; [done|]. lra.
  - apply Qle_shift_div_r; [done|]. lra.
Qed.

(** X3.  The session quality score lies in [0, 100] for every session;
    when all stress and engagement values lie in [0, 1] no clamp is
    active and the score is [60 * (1 - mean stress) + 40 * mean
    engagement]. *)
Theorem session_quality_score_range (df : dataframe) :
  0 <= calculate_session_quality_score df <= 100
  /\ (df <> [] ->
      Forall (fun r => 0 <= stress r <= 1 /\ 0 <= engagement r <= 1) df ->
      calculate_session_quality_score df
      == 60 * (1 - mean (map stress df)) + 40 * mean (map engagement df)).
Proof.
  split.
  - unfold calculate_session_quality_score. destruct df as [|r df]; [lra|].
    set (q := _ * 0.6 + _ * 0.4).
    destruct (max2_spec 0 q) as (H0 & _ & _).
    clearbody q.
    destruct (min2_spec 100 (max2 0 q)) as (H1 & _ & [Hx | Hx]);
      rewrite Hx in *; lra.
  - intros Hne H. unfold calculate_session_quality_score.
    destruct df as [|r df]; [done|].
    set (l := r :: df) in *.
    assert (0 <= mean (map stress l) <= 1) as Hs.
    { apply sum_bounds; [by subst l|]. apply Forall_map.
      eapply Forall_impl; [exact H|]. by intros x [? ?]. }
    assert (0 <= mean (map engagement l) <= 1) as He.
    { apply sum_bounds; [by subst l|]. apply Forall_map.
      eapply Forall_impl; [exact H|]. by intros x [? ?]. }
    set (a := mean (map stress l)) in *. set (e := mean (map engagement l)) in *.
    destruct (max2_spec 0 (100 - a * 100)) as (Ha0 & Ha1 & Ha).
    assert (max2 0 (100 - a * 100) == 100 - a * 100) as Hm.
    { destruct Ha as [Ha | Ha]; rewrite Ha in *; lra. }
    set (q := max2 0 (100 - a * 100) * 0.6 + e * 100 * 0.4).
    assert (q == 60 * (1 - a) + 40 * e) as Hq by (subst q; rewrite Hm; ring).
    destruct (max2_spec 0 q) as (Hq0 & Hq1 & Hqm).
    assert (max2 0 q == q) as Hm2.
    { destruct Hqm as [Hx | Hx]; rewrite Hx in *; lra. }
    destruct (min2_spec 100 (max2 0 q)) as (Hn0 & Hn1 & Hn).
    destruct Hn as [Hx | Hx]; rewrite Hx in *; lra.
Qed.

Lemma session_quality_score_range_witness :
  calculate_session_quality_score [Row 0 0.5 1; Row 1 1 0.5]
  == 60 * (1 - mean (map stress [Row 0 0.5 1; Row 1 1 0.5]))
     + 40 * mean (map engagement [Row 0 0.5 1; Row 1 1 0.5]).
Proof.
  apply (proj2 (session_quality_score_range [Row 0 0.5 1; Row 1 1 0.5])).
  - discriminate.
  - repeat constructor; simpl; lra.
Defined.

Lemma var_nonneg (xs : list Q) (v : Q) : var xs = Some v -> 0 <= v.
Proof.
  unfold var. destruct (length xs <=? 1)%nat eqn:E; [done|]. intros [= <-].
  apply Nat.leb_gt in E.
  apply Qle_shift_div_l.
  - unfold Qlt. simpl. lia.
  - rewrite Qmult_0_l. apply sum_nonneg, Forall_map, Forall_forall.
    intros x _. apply Qsquare_nonneg.
Qed.

(** X4.  For a session with at least one row the aggregates are the five
    entries of the normal path: the most stressed (most engaged) moment is
    the first row whose stress (engagement) no other row exceeds, the
    stability score lies in [0, 1], the longest stress duration is always
    5 and the list of critical moments is always empty. *)
Theorem session_analytics_extremes (df : dataframe) :
  df <> [] ->
  exists s_row e_row stability,
    calculate_session_analytics df
    = Analytics (Moment (timestamp s_row) (stress s_row))
                (Moment (timestamp e_row) (engagement e_row))
                stability 5 []
    /\ (exists before after, df = before ++ s_row :: after
          /\ Forall (fun r => stress r < stress s_row) before
          /\ Forall (fun r => stress r <= stress s_row) after)
    /\ (exists before after, df = before ++ e_row :: after
          /\ Forall (fun r => engagement r < engagement e_row) before
          /\ Forall (fun r => engagement r <= engagement e_row) after)
    /\ 0 <= stability <= 1.
Proof.
  intros Hne.
  destruct (max_by_is_Some stress df Hne) as [s_row Hs].
  destruct (max_by_is_Some engagement df Hne) as [e_row He].
  exists s_row, e_row. eexists. split; [|split; [|split]].
  - unfold calculate_session_analytics. destruct df as [|r df]; [done|].
    rewrite Hs, He. reflexivity.
  - by apply max_by_spec.
  - by apply max_by_spec.
  - destruct (var (map stress df)) as [v|] eqn:Ev; [|lra].
    apply var_nonneg in Ev.
    destruct (max2_spec 0 (1 - v)) as (H0 & _ & [Hx | Hx]); rewrite Hx in *; lra.
Qed.

Lemma session_analytics_extremes_witness :
  exists s_row e_row stability,
    calculate_session_analytics [Row 0 0.5 1; Row 1 1 0.5; Row 2 1 1]
    = Analytics (Moment (timestamp s_row) (stress s_row))
                (Moment (timestamp e_row) (engagement e_row))
                stability 5 []
    /\ (exists before after,
          [Row 0 0.5 1; Row 1 1 0.5; Row 2 1 1] = before ++ s_row :: after
          /\ Forall (fun r => stress r < stress s_row) before
          /\ Forall (fun r => stress r <= stress s_row) after)
    /\ (exists before after,
          [Row 0 0.5 1; Row 1 1 0.5; Row 2 1 1] = before ++ e_row :: after
          /\ Forall (fun r => engagement r < engagement e_row) before
          /\ Forall (fun r => engagement r <= engagement e_row) after)
    /\ 0 <= stability <= 1.
Proof.
  apply (session_analytics_extremes [Row 0 0.5 1; Row 1 1 0.5; Row 2 1 1]).
  discriminate.
Defined.

Lemma mean_constant (xs : list Q) (c : Q) :
  xs <> [] -> Forall (fun x => x == c) xs -> mean xs == c.
Proof.
  intros Hne H. pose proof (length_pos_Q xs Hne) as Hn. unfold mean.
  assert (sum xs == inject_Z (Z.of_nat (length xs)) * c) as ->.
  { rewrite <- (sum_map_const c xs), <- (map_id xs) at 1.
    apply sum_map_ext. intros x Hx. rewrite Forall_forall in H. by apply H. }
  field. lra.
Qed.

(** X5.  The stability score at its edges.  A session of a single row has
    stability 0 whatever its stress (the sample variance is NaN and
    [max(0, nan)] is 0), while a session of two or more rows that all
    have the same stress has stability 1. *)
Theorem session_stability_edges (r : row) (df : dataframe) (c : Q) :
  (exists ms me, calculate_session_analytics [r] = Analytics ms me 0 5 [])
  /\ ((2 <= length df)%nat -> Forall (fun r => stress r == c) df ->
      exists ms me stability,
        calculate_session_analytics df = Analytics ms me stability 5 []
        /\ stability == 1).
Proof.
  split; [by eexists _, _|].
  intros Hlen Hc.
  assert (df <> []) as Hne by (destruct df; [simpl in Hlen; lia|done]).
  destruct (max_by_is_Some stress df Hne) as [s_row Hs].
  destruct (max_by_is_Some engagement df Hne) as [e_row He].
  eexists _, _, _. split.
  - unfold calculate_session_analytics. destruct df as [|r' df]; [done|].
    rewrite Hs, He. reflexivity.
  - unfold var. rewrite length_map.
    destruct (length df <=? 1)%nat eqn:E; [apply Nat.leb_le in E; lia|].
    assert (mean (map stress df) == c) as Hm.
    { apply mean_constant; [by destruct df|by apply Forall_map]. }
    set (m := mean (map stress df)) in *. clearbody m.
    assert (sum (map (fun x => (x - m) * (x - m)) (map stress df)) == 0) as Hz.
    { rewrite (sum_map_ext _ (fun _ => 0)).
      - rewrite sum_map_const. ring.
      - intros x Hx. apply list_elem_of_fmap in Hx as (r' & -> & Hr).
        rewrite Forall_forall in Hc. rewrite (Hc r' Hr), Hm. ring. }
    set (v := sum _ / _).
    assert (v == 0) as Hv.
    { subst v. rewrite Hz. unfold Qdiv. ring. }
    clearbody v. unfold max2.
    destruct (Qlt_bool 0 (1 - v)) eqn:B.
    + rewrite Hv. ring.
    + apply Qlt_bool_false in B. lra.
Qed.

Lemma session_stability_edges_witness :
  exists ms me stability,
    calculate_session_analytics [Row 0 0.9 1; Row 1 0.9 0.5]
    = Analytics ms me stability 5 []
    /\ stability == 1.
Proof.
  apply (proj2 (session_stability_edges (Row 0 0 0)
                  [Row 0 0.9 1; Row 1 0.9 0.5] 0.9)).
  - simpl. lia.
  - repeat constructor.
Defined.



End UtilsProperties.

(** ** src/webcam/face_emotion.py: scores and the stabilizer *)

Section StabilizerRuns.
Import Py FaceEmotion Stabilizer.

Lemma get_nonneg (d : dict) (k : string) :
  Forall (fun v => 0 <= v) (values d) -> 0 <= get d k 0.
Proof.
  induction d as [|[k' v] d IH]; simpl; [discriminate|].
  intros [Hv Hd]%Forall_cons. destruct (String.eqb k' k); auto.
Qed.

Lemma get_absent (d : dict) (k : string) : k ∉ keys d -> get d k 0 = 0.
Proof.
  induction d as [|[k' v] d IH]; simpl; [done|].
  intros [Hk Hd]%not_elem_of_cons.
  destruct (String.eqb k' k) eqn:E; [|auto].
  apply String.eqb_eq in E. by subst.
Qed.

(** Reading every key of a dict gives its values. *)
Lemma get_keys_values (d : dict) :
  NoDup (keys d) -> map (fun k => get d k 0) (keys d) = values d.
Proof.
  induction d as [|[k v] d IH]; simpl; [done|].
  intros [Hk Hd]%NoDup_cons. rewrite String.eqb_refl. f_equal.
  rewrite <- (IH Hd). apply map_ext_in. intros k' Hk'%list_elem_of_In.
  destruct (String.eqb k k') eqn:E; [|done].
  apply String.eqb_eq in E. by subst.
Qed.

(** Over distinct labels the scores read from a vector of non-negative
    scores add up to no more than all its scores. *)
Lemma gets_le_sum (d : dict) (ks : list string) :
  NoDup ks -> Forall (fun v => 0 <= v) (values d) ->
  sum (map (fun k => get d k 0) ks) <= sum (values d).
Proof.
  intros Hks. induction d as [|[k' v] d IH]; intros Hd.
  - simpl. rewrite (sum_map_const 0 ks). unfold sum. simpl. lra.
  - change (values ((k', v) :: d)) with (v :: values d) in *.
    apply Forall_cons in Hd as [Hv Hd]. specialize (IH Hd).
    rewrite sum_cons.
    enough (sum (map (fun k => get ((k', v) :: d) k 0) ks)
            <= v + sum (map (fun k => get d k 0) ks)) by lra.
    clear IH. induction Hks as [|k ks Hk Hks IHks].
    + unfold sum. simpl. lra.
    + cbn [map]. rewrite !sum_cons. cbn [get] in *.
      pose proof (get_nonneg d k Hd) as Hg.
      destruct (String.eqb k' k) eqn:E; [|lra].
      apply String.eqb_eq in E. subst k'.
      rewrite (sum_map_ext (fun k0 => if String.eqb k k0 then v else get d k0 0)
                           (fun k0 => get d k0 0)).
      * lra.
      * intros k0 Hk0. destruct (String.eqb k k0) eqn:E; [|reflexivity].
        apply String.eqb_eq in E. by subst.
Qed.

(** X6.  On a vector of non-negative scores the weighted negative score
    of the face detector lies between 0.1 and 0.4 times the plain sum of
    the four negative scores; on a probability vector it therefore never
    exceeds 0.4. *)
Theorem negative_score_between (d : dict) :
  Forall (fun v => 0 <= v) (values d) ->
  0.1 * Utils.calculate_negative_score d <= _calculate_negative_score d
  /\ _calculate_negative_score d <= 0.4 * Utils.calculate_negative_score d
  /\ (sum (values d) == 1 -> 0 <= _calculate_negative_score d <= 0.4).
Proof.
  intros Hd.
  pose proof (gets_le_sum d ["angry"; "disgust"; "fear"; "sad"]%string
                ltac:(by apply (bool_decide_unpack _)) Hd) as Hle.
  pose proof (get_nonneg d "sad" Hd). pose proof (get_nonneg d "angry" Hd).
  pose proof (get_nonneg d "fear" Hd). pose proof (get_nonneg d "disgust" Hd).
  unfold Utils.calculate_negative_score, _calculate_negative_score in *.
  cbn [map] in *. rewrite !sum_cons in *.
  change (sum []) with 0 in *.
  split; [lra|]. split; [lra|]. intros Hsum. lra.
Qed.

Lemma negative_score_between_witness :
  0.1 * Utils.calculate_negative_score rage <= _calculate_negative_score rage
  /\ _calculate_negative_score rage <= 0.4 * Utils.calculate_negative_score rage
  /\ (sum (values rage) == 1 -> 0 <= _calculate_negative_score rage <= 0.4).
Proof.
  apply (negative_score_between rage).
  repeat constructor; discriminate.
Defined.

Lemma last_n_5 {A} (l : list A) : last_n 5 l = drop (length l - 5) l.
Proof. done. Qed.

(** X7.  The emotion history holds raw inputs, never smoothed outputs:
    after any run of calls it is the last five of the old history followed
    by the inputs of the run that were vectors; absent and empty inputs
    leave no trace in it. *)
Theorem emotion_history_last_five (raws : list (option dict)) (s : detector) :
  (length (emotion_history s) <= 5)%nat ->
  emotion_history (feed raws s).2
  = last_n 5 (emotion_history s ++ valid_inputs raws).
Proof.
  rewrite last_n_5. revert s.
  induction raws as [|raw raws IH]; intros s Hs.
  - cbn [feed valid_inputs omap list_omap snd]. rewrite app_nil_r.
    replace (length (emotion_history s) - 5)%nat with 0%nat by lia. done.
  - cbn [feed].
    destruct (_get_stable_emotions raw s) as [out s'] eqn:E.
    destruct (feed raws s') as [outs s''] eqn:F. cbn [snd].
    assert (s'' = (feed raws s').2) as -> by by rewrite F.
    destruct (truthy raw) eqn:T.
    + destruct raw as [v|]; [|done].
      pose proof (stable_emotions_history v s T) as Hh.
      rewrite E in Hh. cbn [snd] in Hh.
      rewrite IH.
      * rewrite Hh. unfold valid_inputs. cbn [omap list_omap]. rewrite T.
        cbn [mbind option_bind]. unfold deque_append.
        rewrite drop_last_app. by rewrite <- app_assoc.
      * rewrite Hh. unfold deque_append.
        rewrite length_drop, length_app. simpl. lia.
    + rewrite (stable_emotions_absent raw s T) in E. injection E as _ <-.
      rewrite (IH s Hs). unfold valid_inputs. cbn [omap list_omap]. by rewrite T.
Qed.

Lemma emotion_history_last_five_witness :
  emotion_history (feed [Some calm; None; Some []; Some joy] init).2
  = last_n 5 (emotion_history init
              ++ valid_inputs [Some calm; None; Some []; Some joy]).
Proof.
  apply (emotion_history_last_five [Some calm; None; Some []; Some joy] init).
  simpl. lia.
Defined.

Lemma sum_gets_distribution (labels : list string) (d : dict) :
  NoDup labels -> distribution labels d ->
  sum (map (fun k => get d k 0) labels) == 1.
Proof.
  intros Hnd (Hk & _ & Hs). subst labels. by rewrite get_keys_values.
Qed.

Lemma smoothed_distribution (labels : list string) (cur : dict)
    (f : string -> Q) :
  keys cur = labels -> (forall k, 0 <= f k) -> sum (map f labels) == 1 ->
  distribution labels (map (fun kv => (kv.1, f kv.1)) cur).
Proof.
  intros Hk Hf Hs. split; [|split].
  - by rewrite (keys_map_fst (fun kv => f kv.1)).
  - rewrite (values_map_snd (fun kv => f kv.1)). apply Forall_map, Forall_forall.
    intros kv _. apply Hf.
  - rewrite (values_map_snd (fun kv => f kv.1)).
    rewrite <- Hk in Hs. unfold keys in Hs.
    change (list_fmap ?A ?B ?g ?l) with (map g l) in Hs.
    by rewrite map_map in Hs.
Qed.

(** X8.  Smoothing keeps probability vectors probability vectors: when
    the stored history and the input are vectors of non-negative scores
    that sum to 1 over one and the same sequence of distinct labels, the
    stabilized output is such a vector over these labels too. *)
Theorem stable_emotions_distribution (labels : list string) (cur : dict)
    (s : detector) :
  NoDup labels -> labels <> [] ->
  Forall (distribution labels) (emotion_history s) ->
  distribution labels cur ->
  distribution labels (_get_stable_emotions (Some cur) s).1.
Proof.
  intros Hnd Hne Hh Hc.
  assert (exists kv cur', cur = kv :: cur') as (kv & cur' & Hcur).
  { destruct cur as [|kv cur']; [|by eexists _, _].
    destruct Hc as (Hk & _). simpl in Hk. by subst. }
  unfold _get_stable_emotions. rewrite Hcur, <- Hcur.
  assert (Forall (distribution labels) (deque_append 5 (emotion_history s) cur))
    as Hall.
  { unfold deque_append. apply Forall_drop, Forall_app. split; [done|].
    by constructor. }
  assert (length (deque_append 5 (emotion_history s) cur) <= 5)%nat as Hlen.
  { unfold deque_append. rewrite length_drop, length_app. simpl. lia. }
  destruct (deque_append 5 (emotion_history s) cur)
    as [|a [|b [|c [|d [|e [|f h]]]]]]; cbn [length Nat.leb fst]; try done;
    [| | | simpl in Hlen; lia].
  - apply Forall_cons in Hall as [Ha Hall].
    apply Forall_cons in Hall as [Hb Hall].
    apply smoothed_distribution; [by destruct Hc| |].
    + intros k. rewrite smooth_label_three.
      pose proof (get_nonneg a k (proj1 (proj2 Ha))).
      pose proof (get_nonneg b k (proj1 (proj2 Hb))). lra.
    + rewrite (sum_map_ext _ (fun k => get a k 0 * 0.3 + get b k 0 * 0.7))
        by (intros; rewrite smooth_label_three; ring).
      rewrite sum_map_plus, !sum_map_mult.
      rewrite (sum_gets_distribution labels a), (sum_gets_distribution labels b)
        by done. reflexivity.
  - apply Forall_cons in Hall as [Ha Hall].
    apply Forall_cons in Hall as [Hb Hall].
    apply Forall_cons in Hall as [Hc' Hall].
    apply Forall_cons in Hall as [Hd Hall].
    apply smoothed_distribution; [by destruct Hc| |].
    + intros k. rewrite smooth_label_four.
      pose proof (get_nonneg a k (proj1 (proj2 Ha))).
      pose proof (get_nonneg b k (proj1 (proj2 Hb))).
      pose proof (get_nonneg c k (proj1 (proj2 Hc'))).
      pose proof (get_nonneg d k (proj1 (proj2 Hd))). lra.
    + rewrite (sum_map_ext _ (fun k => (get a k 0 * 0.1 + get b k 0 * 0.2)
                                       + (get c k 0 * 0.3 + get d k 0 * 0.4)))
        by (intros; rewrite smooth_label_four; ring).
      rewrite !sum_map_plus, !sum_map_mult.
      rewrite (sum_gets_distribution labels a), (sum_gets_distribution labels b),
        (sum_gets_distribution labels c), (sum_gets_distribution labels d)
        by done. reflexivity.
  - apply Forall_cons in Hall as [Ha Hall].
    apply Forall_cons in Hall as [Hb Hall].
    apply Forall_cons in Hall as [Hc' Hall].
    apply Forall_cons in Hall as [Hd Hall].
    apply smoothed_distribution; [by destruct Hc| |].
    + intros k. rewrite smooth_label_five.
      pose proof (get_nonneg a k (proj1 (proj2 Ha))).
      pose proof (get_nonneg b k (proj1 (proj2 Hb))).
      pose proof (get_nonneg c k (proj1 (proj2 Hc'))).
      pose proof (get_nonneg d k (proj1 (proj2 Hd))). lra.
    + rewrite (sum_map_ext _ (fun k => (get a k 0 * 0.1 + get b k 0 * 0.2)
                                       + (get c k 0 * 0.3 + get d k 0 * 0.4)))
        by (intros; rewrite smooth_label_five; ring).
      rewrite !sum_map_plus, !sum_map_mult.
      rewrite (sum_gets_distribution labels a), (sum_gets_distribution labels b),
        (sum_gets_distribution labels c), (sum_gets_distribution labels d)
        by done. reflexivity.
Qed.

Lemma stable_emotions_distribution_witness :
  distribution (keys calm)
    (_get_stable_emotions (Some joy)
       {| emotion_history := [calm; rage]; face_history := [];
          last_valid_emotions := Some rage |}).1.
Proof.
  apply stable_emotions_distribution.
  - by apply (bool_decide_unpack _).
  - discriminate.
  - repeat constructor; discriminate.
  - split; [reflexivity|split; [repeat constructor; discriminate|reflexivity]].
Defined.

End StabilizerRuns.

(** ** src/webcam/face_emotion.py: the localizer *)

Section LocalizerRuns.
Import Py FaceEmotion.

Lemma select_best_face_none (faces : list box) (h w : Z) (s : detector) :
  valid_faces faces h w = [] -> _select_best_face faces (h, w) s = (None, s).
Proof. unfold _select_best_face. by intros ->. Qed.

(** X9.  When the detector has no face history, or every candidate that
    passes the filter starts within 50 px (in x and in y) of the last
    stored box, the localizer returns, unchanged, the first candidate of
    largest area among those that pass the filter, and appends it to the
    face history. *)
Theorem select_best_face_largest (faces : list box) (h w : Z) (s : detector) :
  valid_faces faces h w <> [] ->
  (forall last_face f, last (face_history s) = Some last_face ->
     f ∈ valid_faces faces h w ->
     (Z.abs (bx f - bx last_face) <= 50)%Z
     /\ (Z.abs (by_ f - by_ last_face) <= 50)%Z) ->
  exists best before after,
    _select_best_face faces (h, w) s
    = (Some best,
       {| emotion_history := emotion_history s;
          face_history := deque_append 3 (face_history s) best;
          last_valid_emotions := last_valid_emotions s |})
    /\ valid_faces faces h w = before ++ best :: after
    /\ Forall (fun f => (bw f * bh f < bw best * bh best)%Z) before
    /\ Forall (fun f => (bw f * bh f <= bw best * bh best)%Z) after.
Proof.
  intros Hne Hnear.
  destruct (max_by_is_Some (fun f => inject_Z (bw f * bh f))
              (valid_faces faces h w) Hne) as [best Hbest].
  destruct (max_by_spec _ _ _ Hbest) as (before & after & Heq & Hb & Ha).
  exists best, before, after. split; [|split; [done|split]].
  - unfold _select_best_face. rewrite Hbest.
    destruct (last (face_history s)) as [last_face|] eqn:El; [|done].
    assert (best ∈ valid_faces faces h w) as Hin.
    { rewrite Heq. apply elem_of_app. right. apply list_elem_of_here. }
    destruct (Hnear last_face best eq_refl Hin) as [Hx Hy].
    apply Z.ltb_ge in Hx, Hy. by rewrite Hx, Hy.
  - eapply Forall_impl; [exact Hb|]. intros f Hf. simpl in Hf.
    by rewrite <- Zlt_Qlt in Hf.
  - eapply Forall_impl; [exact Ha|]. intros f Hf. simpl in Hf.
    by rewrite <- Zle_Qle in Hf.
Qed.

Lemma select_best_face_largest_witness :
  exists best before after,
    _select_best_face [Box 10 10 100 100; Box 20 20 90 200; Box 5 5 200 90]
                      (480, 640)%Z init
    = (Some best,
       {| emotion_history := emotion_history init;
          face_history := deque_append 3 (face_history init) best;
          last_valid_emotions := last_valid_emotions init |})
    /\ valid_faces [Box 10 10 100 100; Box 20 20 90 200; Box 5 5 200 90]
                   480 640
       = before ++ best :: after
    /\ Forall (fun f => (bw f * bh f < bw best * bh best)%Z) before
    /\ Forall (fun f => (bw f * bh f <= bw best * bh best)%Z) after.
Proof.
  apply (select_best_face_largest
           [Box 10 10 100 100; Box 20 20 90 200; Box 5 5 200 90] 480 640 init).
  - discriminate.
  - intros last_face f Hl. discriminate Hl.
Defined.

Lemma valid_faces_none (faces : list box) (h w : Z) :
  Forall (fun f => face_ok h w f = false) faces -> valid_faces faces h w = [].
Proof.
  unfold valid_faces. induction 1 as [|f l Hf _ IH]; [done|].
  rewrite filter_cons_False by by rewrite Hf. exact IH.
Qed.

Lemma face_history_step (faces : list box) (shape : Z * Z) (s : detector) :
  face_history (_select_best_face faces shape s).2
  = match (_select_best_face faces shape s).1 with
    | Some b => deque_append 3 (face_history s) b
    | None => face_history s
    end.
Proof.
  unfold _select_best_face. destruct shape as [h w].
  by destruct (max_by _ _).
Qed.

Lemma face_history_locate (calls : list (list box * (Z * Z)))
    (s : detector) :
  (length (face_history s) <= 3)%nat ->
  face_history (locate calls s).2
  = drop (length (face_history s ++ omap id (locate calls s).1) - 3)
         (face_history s ++ omap id (locate calls s).1).
Proof.
  revert s. induction calls as [|[faces shape] calls IH]; intros s Hs.
  - cbn [locate omap list_omap fst snd]. rewrite app_nil_r.
    replace (length (face_history s) - 3)%nat with 0%nat by lia. done.
  - cbn [locate].
    pose proof (face_history_step faces shape s) as Hh.
    destruct (_select_best_face faces shape s) as [b s'] eqn:E.
    destruct (locate calls s') as [bs s''] eqn:F. cbn [fst snd] in *.
    assert (s'' = (locate calls s').2) as -> by by rewrite F.
    assert (bs = (locate calls s').1) as -> by by rewrite F.
    destruct b as [b|]; cbn [omap list_omap id mbind option_bind].
    + rewrite IH.
      * rewrite Hh. unfold deque_append.
        rewrite drop_last_app. by rewrite <- app_assoc.
      * rewrite Hh. unfold deque_append.
        rewrite length_drop, length_app. simpl. lia.
    + rewrite IH; rewrite Hh; done.
Qed.

(** X10.  The face history holds the boxes the localizer returned (after
    any blending), never the raw candidates: after any run of calls it is
    the last three of the old history followed by the boxes returned in
    the run; a call that finds no face leaves no trace in it. *)
Theorem face_history_last_three (calls : list (list box * (Z * Z)))
    (s : detector) :
  (length (face_history s) <= 3)%nat ->
  face_history (locate calls s).2
  = last_n 3 (face_history s ++ omap id (locate calls s).1).
Proof. apply face_history_locate. Qed.

Lemma face_history_last_three_witness :
  face_history (locate [([Box 10 10 100 100], (480, 640)%Z);
                        ([], (480, 640)%Z);
                        ([Box 200 10 100 100], (480, 640)%Z)] init).2
  = last_n 3 (face_history init
              ++ omap id (locate [([Box 10 10 100 100], (480, 640)%Z);
                                  ([], (480, 640)%Z);
                                  ([Box 200 10 100 100], (480, 640)%Z)]
                                 init).1).
Proof.
  apply (face_history_last_three
           [([Box 10 10 100 100], (480, 640)%Z); ([], (480, 640)%Z);
            ([Box 200 10 100 100], (480, 640)%Z)] init).
  simpl. lia.
Defined.

Lemma face_ok_min_size (h w : Z) (b : box) :
  face_ok h w b = true -> min_size_ok b = true.
Proof.
  intros (Hw & Hh & _)%face_ok_iff. unfold min_size_ok.
  apply andb_true_intro. split; apply Z.ltb_lt; lia.
Qed.

Lemma valid_faces_min_size (faces : list box) (h w : Z) :
  valid_faces (filter (fun b => min_size_ok b = true) faces) h w
  = valid_faces faces h w.
Proof.
  unfold valid_faces. rewrite list_filter_filter.
  apply list_filter_iff. intros b. split; [by intros [? ?]|].
  intros Hb. split; [done|]. by apply (face_ok_min_size h w).
Qed.

Lemma select_best_face_min_size (faces : list box) (frame_shape : Z * Z)
    (s : detector) :
  _select_best_face (filter (fun b => min_size_ok b = true) faces) frame_shape s
  = _select_best_face faces frame_shape s.
Proof.
  destruct frame_shape as [h w]. unfold _select_best_face.
  by rewrite valid_faces_min_size.
Qed.

(** X11.  The 60 px size test of the FER and dlib backends never changes
    which box is chosen from a backend's list: whichever backend supplies
    the candidates, the result is what the localizer returns on that
    backend's full list.  The test only decides whether the next backend
    is asked. *)
Theorem min_size_test_redundant (fer cascade dlib : option (list box))
    (frame_shape : Z * Z) (s : detector) :
  exists faces,
    faces ∈ [default [] fer; default [] cascade; default [] dlib]
    /\ _detect_face_multi_method fer cascade dlib frame_shape s
       = _select_best_face faces frame_shape s.
Proof.
  unfold _detect_face_multi_method. cbv zeta.
  destruct (filter (fun b => min_size_ok b = true) (default [] fer))
    as [|b l] eqn:E.
  - destruct (default [] cascade) as [|b l] eqn:Ec.
    + exists (default [] dlib). split; [set_solver|].
      apply select_best_face_min_size.
    + exists (b :: l). split; [set_solver|done].
  - exists (default [] fer). split; [set_solver|].
    rewrite <- E. apply select_best_face_min_size.
Qed.

(** X12.  The backends are a strict fallback chain.  As soon as FER
    reports one box wider and taller than 60 px, the cascade and dlib
    results are not read; if none of FER's boxes passes the localizer
    filter (a 70 x 70 box, say) the frame then has no face, whatever the
    other two backends found, and the detector is left as it was. *)
Theorem detect_face_fer_shadows_fallbacks (fer : list box)
    (cascade dlib : option (list box)) (h w : Z) (s : detector) (b : box) :
  b ∈ fer -> min_size_ok b = true ->
  _detect_face_multi_method (Some fer) cascade dlib (h, w) s
  = _select_best_face fer (h, w) s
  /\ (Forall (fun f => face_ok h w f = false) fer ->
      _detect_face_multi_method (Some fer) cascade dlib (h, w) s = (None, s)).
Proof.
  intros Hb Hsize.
  assert (_detect_face_multi_method (Some fer) cascade dlib (h, w) s
          = _select_best_face fer (h, w) s) as Heq.
  { unfold _detect_face_multi_method. cbv zeta.
    change (default [] (Some fer)) with fer.
    assert (b ∈ filter (fun b => min_size_ok b = true) fer) as Hin
      by by apply list_elem_of_filter.
    destruct (filter (fun b => min_size_ok b = true) fer) as [|b' l] eqn:E.
    - by apply elem_of_nil in Hin.
    - rewrite <- E. apply select_best_face_min_size. }
  split; [done|]. intros Hbad. rewrite Heq.
  by apply select_best_face_none, valid_faces_none.
Qed.

Lemma detect_face_fer_shadows_fallbacks_witness :
  _detect_face_multi_method (Some [Box 100 100 70 70])
    (Some [Box 100 100 120 120]) None (480, 640)%Z init
  = _select_best_face [Box 100 100 70 70] (480, 640)%Z init
  /\ (Forall (fun f => face_ok 480 640 f = false) [Box 100 100 70 70] ->
      _detect_face_multi_method (Some [Box 100 100 70 70])
        (Some [Box 100 100 120 120]) None (480, 640)%Z init
      = (None, init)).
Proof.
  apply (detect_face_fer_shadows_fallbacks [Box 100 100 70 70]
           (Some [Box 100 100 120 120]) None 480 640 init (Box 100 100 70 70)).
  - apply list_elem_of_here.
  - reflexivity.
Defined.

End LocalizerRuns.

(** ** src/fallback/rule_based.py *)

Section FallbackRuns.
Import Py Fallback.

Lemma raw_emotions_total (np_sin np_cos : Q -> Q) (scenario : string)
    (time_mod : Q) :
  0.07 <= sum (values (raw_emotions np_sin np_cos scenario time_mod)).
Proof.
  unfold raw_emotions.
  destruct (String.eqb scenario "happy");
    [|destruct (String.eqb scenario "stressed")].
  all: cbn [values fmap list_fmap snd]; rewrite !sum_cons;
    change (sum []) with 0.
  all: repeat match goal with
         | |- context [max2 0.01 ?x] =>
             let H := fresh in
             pose proof (max2_floor x) as H; generalize dependent (max2 0.01 x);
             intros
         end.
  all: lra.
Qed.

(** X13.  The neutral fallback vector of [generate_face_emotions] is never
    returned: the total of the raw weights is at least 0.07 in every
    scenario, whatever the sine and cosine terms are, so the result is
    always the raw weights, in the order the scenario's branch wrote
    them, each divided by their total. *)
Theorem generate_face_emotions_never_falls_back (np_sin np_cos : Q -> Q)
    (rnd : nat) (g : generator) :
  let raw := raw_emotions np_sin np_cos (current_scenario g)
               (inject_Z (Z.of_nat (S (time_factor g))) * 0.1) in
  0.07 <= sum (values raw)
  /\ (generate_face_emotions np_sin np_cos rnd g).1.1
     = map (fun kv => (kv.1, kv.2 / sum (values raw))) raw.
Proof.
  intros raw. pose proof (raw_emotions_total np_sin np_cos (current_scenario g)
    (inject_Z (Z.of_nat (S (time_factor g))) * 0.1)) as Ht.
  fold raw in Ht. split; [done|].
  rewrite generate_face_emotions_emotions. cbv zeta. fold raw.
  assert (Qlt_bool 0 (sum (values raw)) = true) as -> by (apply Qlt_bool_iff; lra).
  done.
Qed.

(** X14.  The audio stress is clamped to [0, 1] for every sine value and
    every noise.  When the sine lies in [-1, 1] and the noise in
    [-0.1, 0.1], the scenarios give separate bands: at least 0.4 when
    "stressed", at most 0.45 when "happy", and within [0.1, 0.7]
    otherwise. *)
Theorem audio_stress_bands (np_sin : Q -> Q) (noise : Q) (g : generator) :
  let stress := (generate_audio_stress np_sin noise g).1 in
  0 <= stress <= 1
  /\ ((forall x, -1 <= np_sin x <= 1) -> -0.1 <= noise <= 0.1 ->
      (current_scenario g = "stressed"%string -> 0.4 <= stress)
      /\ (current_scenario g = "happy"%string -> stress <= 0.45)
      /\ (current_scenario g <> "stressed"%string ->
          current_scenario g <> "happy"%string -> 0.1 <= stress <= 0.7)).
Proof.
  cbv zeta. unfold generate_audio_stress. cbn [fst].
  set (t := inject_Z (Z.of_nat (time_factor g)) * 0.08).
  set (base := if String.eqb (current_scenario g) "stressed" then _ else _).
  assert (forall x, 0 <= max2 0.0 (min2 1.0 x) <= 1) as Hclamp.
  { intros x. destruct (min2_spec 1.0 x) as (H1 & _ & _).
    destruct (max2_spec 0.0 (min2 1.0 x)) as (H0 & _ & [Hx | Hx]);
      rewrite Hx in *; lra. }
  assert (forall x lo hi, 0 <= lo -> hi <= 1 -> lo <= x <= hi ->
                          lo <= max2 0.0 (min2 1.0 x) <= hi) as Hband.
  { intros x lo hi Hlo Hhi Hx.
    destruct (min2_spec 1.0 x) as (H1 & H2 & [Hm | Hm]);
      destruct (max2_spec 0.0 (min2 1.0 x)) as (H0 & H3 & [Hy | Hy]);
      rewrite Hy in *; rewrite ?Hm in *; lra. }
  split; [apply Hclamp|].
  intros Hsin Hnoise. subst base. clearbody t.
  split; [|split].
  - intros ->. change (String.eqb "stressed" "stressed") with true. cbv iota.
    pose proof (Hsin (t * 1.5)).
    apply (Hband _ 0.4 1); lra.
  - intros ->. change (String.eqb "happy" "stressed") with false.
    change (String.eqb "happy" "happy") with true. cbv iota.
    pose proof (Hsin (t * 0.8)).
    destruct (min2_spec 1.0 (0.2 + 0.15 * np_sin (t * 0.8) + noise))
      as (H1 & H2 & _).
    destruct (max2_spec 0.0 (min2 1.0 (0.2 + 0.15 * np_sin (t * 0.8) + noise)))
      as (_ & _ & [Hy | Hy]); rewrite Hy; lra.
  - intros Hs Hh.
    apply String.eqb_neq in Hs, Hh. rewrite Hs, Hh.
    pose proof (Hsin t).
    apply (Hband _ 0.1 0.7); lra.
Qed.

Lemma audio_stress_bands_witness :
  let stress := (generate_audio_stress (fun _ => 1) 0.1
                   {| last_face_emotions := []; last_audio_stress := 0.5;
                      time_factor := 3; scenario_timer := 3;
                      current_scenario := "happy" |}).1 in
  stress <= 0.45.
Proof.
  apply (proj2 (audio_stress_bands (fun _ => 1) 0.1
                  {| last_face_emotions := []; last_audio_stress := 0.5;
                     time_factor := 3; scenario_timer := 3;
                     current_scenario := "happy" |})).
  - intros x. lra.
  - lra.
  - reflexivity.
Defined.

Lemma random_choice_scenarios (rnd : nat) : random_choice rnd ∈ scenarios.
Proof.
  unfold random_choice. apply list_elem_of_In, nth_In.
  apply Nat.mod_upper_bound. discriminate.
Qed.

Lemma generate_face_emotions_fields (np_sin np_cos : Q -> Q) (rnd : nat)
    (g : generator) :
  let g' := (generate_face_emotions np_sin np_cos rnd g).2 in
  time_factor g' = S (time_factor g)
  /\ (current_scenario g' = current_scenario g
      \/ current_scenario g' = random_choice rnd)
  /\ last_audio_stress g' = last_audio_stress g
  /\ last_face_emotions g' = (generate_face_emotions np_sin np_cos rnd g).1.1.
Proof.
  cbv zeta. unfold generate_face_emotions.
  destruct (20 <? S (scenario_timer g))%nat; cbn [fst snd time_factor
    current_scenario last_audio_stress last_face_emotions]; auto.
Qed.

(** X15.  After any number [n] of calls on a fresh generator, whatever
    the draws: the time factor is [n], the scenario timer is [n mod 21]
    (so it never exceeds 20), and the scenario is one of "normal",
    "happy" and "stressed". *)
Theorem run_invariants (np_sin np_cos : Q -> Q) (n : nat) (rnd : nat -> nat) :
  let g := (run np_sin np_cos n rnd init).2 in
  time_factor g = n
  /\ scenario_timer g = (n mod 21)%nat
  /\ current_scenario g ∈ scenarios.
Proof.
  cbv zeta.
  assert (forall n rnd g,
            time_factor (run np_sin np_cos n rnd g).2 = (time_factor g + n)%nat
            /\ (current_scenario g ∈ scenarios ->
                current_scenario (run np_sin np_cos n rnd g).2 ∈ scenarios)
            /\ last_audio_stress (run np_sin np_cos n rnd g).2
               = last_audio_stress g) as Hrun.
  { clear n rnd. induction n as [|n IH]; intros rnd g.
    - cbn [run snd]. split; [lia|done].
    - rewrite run_S.
      destruct (generate_face_emotions_fields np_sin np_cos (rnd 0%nat) g)
        as (Ht & Hs & Ha & _).
      destruct (generate_face_emotions np_sin np_cos (rnd 0%nat) g)
        as [[e p] g'].
      destruct (IH (fun i => rnd (S i)) g') as (IHt & IHs & IHa).
      destruct (run np_sin np_cos n (fun i => rnd (S i)) g') as [log g''].
      cbn [fst snd] in *. split; [lia|]. split; [|congruence].
      intros Hin. apply IHs. destruct Hs as [-> | ->]; [done|].
      apply random_choice_scenarios. }
  destruct (Hrun n rnd init) as (Ht & Hs & Ha).
  split; [exact Ht|]. split.
  - apply (run_timer np_sin np_cos n rnd init). simpl. lia.
  - apply Hs. by apply (bool_decide_unpack _).
Qed.

Lemma simulate_scenario_gen (scenario_type : string) (u : Q * Q)
    (s : simulator) :
  gen (simulate_scenario scenario_type u s) = gen s.
Proof.
  unfold simulate_scenario.
  by repeat destruct (String.eqb scenario_type _).
Qed.

Lemma session_loop_plain (np_sin np_cos : Q -> Q) (ds : list draws)
    (total_points : Z) (current_phase phase_progress : nat) (s : simulator) :
  (session_loop np_sin np_cos ds total_points current_phase phase_progress s).1
  = (plain_session np_sin np_cos ds (gen s)).1
  /\ gen (session_loop np_sin np_cos ds total_points current_phase
            phase_progress s).2
     = (plain_session np_sin np_cos ds (gen s)).2.
Proof.
  revert current_phase phase_progress s.
  induction ds as [|d ds IH]; intros current_phase phase_progress s; [done|].
  cbn [session_loop plain_session].
  set (branch := if (_ <=? _)%Z then _ else _).
  assert (gen branch.2 = gen s) as Hg.
  { subst branch. destruct (_ <=? _)%Z; [|done]. apply simulate_scenario_gen. }
  destruct branch as [[cp pp] s1]. cbn [snd] in Hg. rewrite Hg.
  destruct (generate_face_emotions np_sin np_cos (d_choice d) (gen s))
    as [[e p] g1].
  destruct (generate_audio_stress np_sin (d_noise d) g1) as [a g2].
  specialize (IH cp (S pp) {| gen := g2; emotion_trend := emotion_trend s1;
                              stress_trend := stress_trend s1 |}).
  cbn [gen] in IH.
  destruct (session_loop _ _ ds _ _ _ _) as [pts s2].
  destruct (plain_session _ _ ds g2) as [pts' g3].
  cbn [fst snd] in *. destruct IH as [-> ->]. done.
Qed.

Lemma plain_session_length (np_sin np_cos : Q -> Q) (ds : list draws)
    (g : generator) :
  length (plain_session np_sin np_cos ds g).1 = length ds.
Proof.
  revert g. induction ds as [|d ds IH]; intros g; [done|].
  cbn [plain_session].
  destruct (generate_face_emotions _ _ _ g) as [[e p] g1].
  destruct (generate_audio_stress _ _ g1) as [a g2].
  specialize (IH g2). destruct (plain_session _ _ ds g2) as [pts g3].
  cbn [fst length] in *. by rewrite IH.
Qed.

(** X16.  The phases of [generate_realistic_session_data] have no effect
    on the data: the session has [duration_minutes * 60] points (none for
    a negative duration), and they are exactly the points that calling
    [generate_face_emotions] and [generate_audio_stress] alternately on
    the same generator produces; [simulate_scenario] only sets the two
    trend fields, which nothing reads. *)
Theorem session_data_ignores_phases (np_sin np_cos : Q -> Q)
    (duration_minutes : Z) (ds : nat -> draws) (s : simulator) :
  let all_draws := map ds (seq 0 (Z.to_nat (duration_minutes * 60))) in
  let session :=
    generate_realistic_session_data np_sin np_cos duration_minutes ds s in
  session.1 = (plain_session np_sin np_cos all_draws (gen s)).1
  /\ gen session.2 = (plain_session np_sin np_cos all_draws (gen s)).2
  /\ length session.1 = Z.to_nat (duration_minutes * 60).
Proof.
  cbv zeta. unfold generate_realistic_session_data. cbv zeta.
  destruct (session_loop_plain np_sin np_cos
              (map ds (seq 0 (Z.to_nat (duration_minutes * 60))))
              (duration_minutes * 60) 0 0 s) as [H1 H2].
  split; [exact H1|]. split; [exact H2|].
  rewrite H1, plain_session_length, length_map, length_seq. done.
Qed.

End FallbackRuns.

(** ** app.py: the auto-screenshot block *)

Section EventDetectorRuns.
Import Py App.

Lemma last_shot_insert_ne (last : gmap string Q) (k k' : string) (t : Q) :
  k <> k' -> last_shot (<[k := t]> last) k' = last_shot last k'.
Proof. intros Hk. unfold last_shot. by rewrite lookup_insert_ne. Qed.

Ltac leftmost c :=
  lazymatch c with
  | andb ?a _ => leftmost a
  | orb ?a _ => leftmost a
  | _ => c
  end.

(** One pass of the block in closed form: each rule looks at its own
    counter and its own last-fire time only. *)
Lemma tick_closed_form (face fused : dict) (now stress : Q) (st : session_state) :
  item fused "stress" = Some stress ->
  let confidence := get fused "confidence" 0 in
  let engagement := get fused "engagement" 1 in
  let last := last_screenshot_time st in
  let happy := is_happy (dominant face) && Qle_bool 0.75 confidence in
  let stress_fires :=
    Qle_bool 0.85 stress && (3 <=? S (stress_counter st))%nat
    && Qle_bool 10 (now - last_shot last "STRESS") in
  let happy_fires := happy && Qle_bool 10 (now - last_shot last "HAPPY") in
  let distraction_fires :=
    Qle_bool engagement 0.10 && (5 <=? S (distraction_counter st))%nat
    && Qle_bool 10 (now - last_shot last "DISTRACTION") in
  let st' := (tick face fused now st).1 in
  (tick face fused now st).2
  = (if stress_fires then Some (Event "STRESS" stress)
     else if happy && (happy_fires || distraction_fires)
     then Some (Event "HAPPY" confidence)
     else if distraction_fires then Some (Event "DISTRACTION" engagement)
     else None)
  /\ screenshots st' = screenshots st ++ option_list (tick face fused now st).2
  /\ stress_counter st'
     = (if stress_fires then 0%nat
        else if Qle_bool 0.85 stress then S (stress_counter st) else 0%nat)
  /\ distraction_counter st'
     = (if distraction_fires then 0%nat
        else if Qle_bool engagement 0.10 then S (distraction_counter st)
        else 0%nat)
  /\ last_screenshot_time st' !! "STRESS"%string
     = (if stress_fires then Some now else last !! "STRESS"%string)
  /\ last_screenshot_time st' !! "HAPPY"%string
     = (if happy_fires then Some now else last !! "HAPPY"%string)
  /\ last_screenshot_time st' !! "DISTRACTION"%string
     = (if distraction_fires then Some now else last !! "DISTRACTION"%string).
Proof.
  intros Hs. cbv zeta. unfold tick. rewrite Hs. cbv zeta.
  repeat (cbn [andb orb fst snd Nat.eqb stress_counter distraction_counter
               last_screenshot_time];
          rewrite ?last_shot_insert_ne by done;
          match goal with
          | |- context [if ?c then _ else _] =>
              let b := leftmost c in destruct b eqn:?
          end).
  all: cbn [andb orb fst snd Nat.eqb stress_counter distraction_counter
            last_screenshot_time].
  all: do 4 (split; [reflexivity|]).
  all: repeat split;
    rewrite ?lookup_insert_eq; rewrite ?lookup_insert_ne by done;
    rewrite ?lookup_insert_eq; rewrite ?lookup_insert_ne by done; done.
Qed.

(** X17.  The three rules of the auto-screenshot block are independent
    of one another: whether STRESS, HAPPY or DISTRACTION fires depends only
    on the rule's own metric, its own counter and its own last-fire time,
    and each firing rule resets its own counter and stamps its own
    last-fire time.  One event at most is logged per refresh: STRESS if
    that rule fired; else HAPPY if the face is happy with confidence 0.75
    or more and either HAPPY or DISTRACTION fired; else DISTRACTION if that
    rule fired. *)
Theorem tick_rules_independent (face fused : dict) (now stress : Q)
    (st : session_state) :
  item fused "stress" = Some stress ->
  let confidence := get fused "confidence" 0 in
  let engagement := get fused "engagement" 1 in
  let last := last_screenshot_time st in
  let happy := is_happy (dominant face) && Qle_bool 0.75 confidence in
  let stress_fires :=
    Qle_bool 0.85 stress && (3 <=? S (stress_counter st))%nat
    && Qle_bool 10 (now - last_shot last "STRESS") in
  let happy_fires := happy && Qle_bool 10 (now - last_shot last "HAPPY") in
  let distraction_fires :=
    Qle_bool engagement 0.10 && (5 <=? S (distraction_counter st))%nat
    && Qle_bool 10 (now - last_shot last "DISTRACTION") in
  let st' := (tick face fused now st).1 in
  (tick face fused now st).2
  = (if stress_fires then Some (Event "STRESS" stress)
     else if happy && (happy_fires || distraction_fires)
     then Some (Event "HAPPY" confidence)
     else if distraction_fires then Some (Event "DISTRACTION" engagement)
     else None)
  /\ screenshots st' = screenshots st ++ option_list (tick face fused now st).2
  /\ stress_counter st'
     = (if stress_fires then 0%nat
        else if Qle_bool 0.85 stress then S (stress_counter st) else 0%nat)
  /\ distraction_counter st'
     = (if distraction_fires then 0%nat
        else if Qle_bool engagement 0.10 then S (distraction_counter st)
        else 0%nat)
  /\ last_screenshot_time st' !! "STRESS"%string
     = (if stress_fires then Some now else last !! "STRESS"%string)
  /\ last_screenshot_time st' !! "HAPPY"%string
     = (if happy_fires then Some now else last !! "HAPPY"%string)
  /\ last_screenshot_time st' !! "DISTRACTION"%string
     = (if distraction_fires then Some now else last !! "DISTRACTION"%string).
Proof. apply tick_closed_form. Qed.

Lemma tick_rules_independent_witness :
  (tick [("happy"%string, 0.9); ("neutral"%string, 0.1)]
        [("stress"%string, 0.2); ("confidence"%string, 0.9);
         ("engagement"%string, 0.05)]
        100
        {| stress_counter := 0; distraction_counter := 4;
           last_screenshot_time := {["HAPPY"%string := 95]};
           screenshots := [] |}).2
  = Some (Event "HAPPY" 0.9).
Proof.
  rewrite (proj1 (tick_rules_independent
           [("happy"%string, 0.9); ("neutral"%string, 0.1)]
           [("stress"%string, 0.2); ("confidence"%string, 0.9);
            ("engagement"%string, 0.05)]
           100 0.2
           {| stress_counter := 0; distraction_counter := 4;
              last_screenshot_time := {["HAPPY"%string := 95]};
              screenshots := [] |} eq_refl)).
  by vm_compute.
Defined.

Lemma is_happy_iff (d : option string) :
  is_happy d = true <-> d = Some "happy"%string.
Proof.
  destruct d as [e|]; simpl; [|done].
  rewrite String.eqb_eq. split; [by intros ->|by intros [= ->]].
Qed.

Lemma tick_event_kinds (face fused : dict) (now : Q)
    (st : session_state) (e : event) :
  (tick face fused now st).2 = Some e ->
  (ev_type e = "STRESS"%string /\ item fused "stress" = Some (ev_score e)
   /\ 0.85 <= ev_score e)
  \/ (ev_type e = "HAPPY"%string /\ ev_score e = get fused "confidence" 0
      /\ 0.75 <= ev_score e /\ dominant face = Some "happy"%string)
  \/ (ev_type e = "DISTRACTION"%string /\ ev_score e = get fused "engagement" 1
      /\ ev_score e <= 0.10).
Proof.
  destruct (item fused "stress") as [stress|] eqn:Hs.
  - destruct (tick_closed_form face fused now stress st Hs) as (-> & _).
    destruct (Qle_bool 0.85 stress) eqn:E1; cbn [andb].
    2: destruct (is_happy (dominant face) && Qle_bool 0.75 (get fused "confidence" 0))
         eqn:E2; cbn [andb].
    1: destruct ((3 <=? S (stress_counter st))%nat && _) eqn:E3.
    1: { intros [= <-]. left. apply Qle_bool_iff in E1. done. }
    1: destruct (is_happy (dominant face) && Qle_bool 0.75 (get fused "confidence" 0))
         eqn:E2; cbn [andb].
    all: repeat match goal with
           | |- context [if ?c then _ else _] => destruct c eqn:?
           end; intros [= <-].
    all: try (right; left; apply andb_prop in E2 as [H1%is_happy_iff H2%Qle_bool_iff];
              done).
    all: right; right; cbn [ev_type ev_score];
      match goal with
      | H : _ && _ && _ = true |- _ =>
          apply andb_prop in H as [[H1%Qle_bool_iff _]%andb_prop _]
      end; done.
  - unfold tick. rewrite Hs. done.
Qed.

(** X18.  Every event the block logs is typed STRESS, HAPPY or
    DISTRACTION and carries the metric of its type beyond the rule's
    threshold: a stress of 0.85 or more, a confidence of 0.75 or more
    with "happy" the dominant face label, or an engagement of 0.10 or
    less.  The type AUTO of the last branch is never logged. *)
Theorem tick_never_logs_auto (face fused : dict) (now : Q)
    (st : session_state) (e : event) :
  (tick face fused now st).2 = Some e ->
  (ev_type e = "STRESS"%string /\ item fused "stress" = Some (ev_score e)
   /\ 0.85 <= ev_score e)
  \/ (ev_type e = "HAPPY"%string /\ ev_score e = get fused "confidence" 0
      /\ 0.75 <= ev_score e /\ dominant face = Some "happy"%string)
  \/ (ev_type e = "DISTRACTION"%string /\ ev_score e = get fused "engagement" 1
      /\ ev_score e <= 0.10).
Proof. apply tick_event_kinds. Qed.

Lemma tick_never_logs_auto_witness :
  (ev_type (Event "HAPPY" 0.9) = "STRESS"%string
   /\ item [("stress"%string, 0.2); ("confidence"%string, 0.9);
            ("engagement"%string, 0.05)] "stress"
      = Some (ev_score (Event "HAPPY" 0.9))
   /\ 0.85 <= ev_score (Event "HAPPY" 0.9))
  \/ (ev_type (Event "HAPPY" 0.9) = "HAPPY"%string
      /\ ev_score (Event "HAPPY" 0.9)
         = get [("stress"%string, 0.2); ("confidence"%string, 0.9);
                ("engagement"%string, 0.05)] "confidence" 0
      /\ 0.75 <= ev_score (Event "HAPPY" 0.9)
      /\ dominant [("happy"%string, 0.9); ("neutral"%string, 0.1)]
         = Some "happy"%string)
  \/ (ev_type (Event "HAPPY" 0.9) = "DISTRACTION"%string
      /\ ev_score (Event "HAPPY" 0.9)
         = get [("stress"%string, 0.2); ("confidence"%string, 0.9);
                ("engagement"%string, 0.05)] "engagement" 1
      /\ ev_score (Event "HAPPY" 0.9) <= 0.10).
Proof.
  apply (tick_never_logs_auto
           [("happy"%string, 0.9); ("neutral"%string, 0.1)]
           [("stress"%string, 0.2); ("confidence"%string, 0.9);
            ("engagement"%string, 0.05)]
           100
           {| stress_counter := 0; distraction_counter := 4;
              last_screenshot_time := {["HAPPY"%string := 95]};
              screenshots := [] |}).
  by vm_compute.
Defined.






(** X21.  The dominant face label is the first label, in the mapping's
    order, whose score no other label exceeds, so on a tie the earlier
    label wins; it is absent exactly for the empty mapping. *)
Theorem dominant_first_maximum (face_emotions : dict) :
  (dominant face_emotions = None <-> face_emotions = [])
  /\ (forall k, dominant face_emotions = Some k ->
      exists before after,
        keys face_emotions = before ++ k :: after
        /\ Forall (fun k' => get face_emotions k' 0 < get face_emotions k 0)
                  before
        /\ Forall (fun k' => get face_emotions k' 0 <= get face_emotions k 0)
                  after).
Proof.
  split.
  - unfold dominant. destruct face_emotions as [|[k v] d]; [done|].
    split; discriminate.
  - intros k Hk. unfold dominant in Hk.
    by apply max_by_spec in Hk.
Qed.

Lemma dominant_first_maximum_witness :
  exists before after,
    keys [("sad"%string, 0.2); ("happy"%string, 0.4); ("neutral"%string, 0.4)]
    = before ++ "happy"%string :: after
    /\ Forall (fun k' =>
                 get [("sad"%string, 0.2); ("happy"%string, 0.4);
                      ("neutral"%string, 0.4)] k' 0
                 < get [("sad"%string, 0.2); ("happy"%string, 0.4);
                        ("neutral"%string, 0.4)] "happy" 0) before
    /\ Forall (fun k' =>
                 get [("sad"%string, 0.2); ("happy"%string, 0.4);
                      ("neutral"%string, 0.4)] k' 0
                 <= get [("sad"%string, 0.2); ("happy"%string, 0.4);
                         ("neutral"%string, 0.4)] "happy" 0) after.
Proof.
  apply (proj2 (dominant_first_maximum
                  [("sad"%string, 0.2); ("happy"%string, 0.4);
                   ("neutral"%string, 0.4)]) "happy"%string).
  reflexivity.
Defined.

End EventDetectorRuns.

(** ** src/dashboard: the stress alert and the pie chart data *)

Section DashboardProperties.
Import Py Dashboard.

Lemma forallb_Qlt (threshold : Q) (l : list Q) :
  forallb (fun stress => Qlt_bool threshold stress) l = true
  <-> Forall (fun stress => threshold < stress) l.
Proof.
  induction l as [|x l IH]; simpl; [by split|].
  rewrite andb_true_iff, Forall_cons, IH, Qlt_bool_iff. done.
Qed.

(** X22.  For a duration of at least 1 the stress alert is raised exactly
    when the history ends with [duration] readings that all exceed the
    threshold strictly; a history shorter than the duration never raises
    it.  For a duration of 0 the slice is the whole history, so the alert
    is raised exactly when every reading exceeds the threshold, and
    always on an empty history. *)
Theorem stress_alert_spec (stress_history : list Q) (threshold : Q)
    (duration : nat) :
  ((1 <= duration)%nat ->
   (display_stress_alert stress_history threshold duration = true
    <-> exists earlier recent,
          stress_history = earlier ++ recent /\ length recent = duration
          /\ Forall (fun stress => threshold < stress) recent))
  /\ (duration = 0%nat ->
      (display_stress_alert stress_history threshold duration = true
       <-> Forall (fun stress => threshold < stress) stress_history)).
Proof.
  split.
  - intros Hd. unfold display_stress_alert, last_n.
    destruct (Nat.ltb_spec (length stress_history) duration) as [Hlt | Hge].
    + split; [done|]. intros (earlier & recent & -> & Hlen & _).
      rewrite length_app in Hlt. lia.
    + destruct (Nat.eqb_spec duration 0) as [-> | _]; [lia|].
      rewrite forallb_Qlt. split.
      * intros Hall.
        exists (take (length stress_history - duration) stress_history),
               (drop (length stress_history - duration) stress_history).
        rewrite take_drop, length_drop. split; [done|]. split; [lia|done].
      * intros (earlier & recent & -> & Hlen & Hall).
        rewrite length_app, Hlen.
        replace (length earlier + duration - duration)%nat
          with (length earlier) by lia.
        by rewrite drop_app_length.
  - intros ->. unfold display_stress_alert, last_n. cbn [Nat.ltb Nat.leb Nat.eqb].
    apply forallb_Qlt.
Qed.

Lemma stress_alert_spec_witness :
  display_stress_alert [0.2; 0.8; 0.9; 0.75] 0.7 3 = true
  <-> exists earlier recent,
        [0.2; 0.8; 0.9; 0.75] = earlier ++ recent /\ length recent = 3%nat
        /\ Forall (fun stress => 0.7 < stress) recent.
Proof.
  apply (proj1 (stress_alert_spec [0.2; 0.8; 0.9; 0.75] 0.7 3)). lia.
Defined.

(** X23.  One reading at or below the threshold silences the alert: as
    long as fewer than [duration] readings have followed it, no alert is
    raised, whatever the readings before and after it are. *)
Theorem stress_alert_silenced (earlier later : list Q) (reading threshold : Q)
    (duration : nat) :
  reading <= threshold -> (length later < duration)%nat ->
  display_stress_alert (earlier ++ reading :: later) threshold duration = false.
Proof.
  intros Hr Hlen. apply not_true_iff_false. intros Halert.
  unfold display_stress_alert, last_n in Halert.
  destruct (Nat.ltb_spec (length (earlier ++ reading :: later)) duration)
    as [Hlt | Hge]; [done|].
  destruct (Nat.eqb_spec duration 0) as [-> | _]; [lia|].
  apply forallb_Qlt in Halert.
  rewrite length_app in Hge, Halert. cbn [length] in Hge, Halert.
  rewrite drop_app_le in Halert by lia.
  apply Forall_app in Halert as [_ Halert].
  apply Forall_cons in Halert as [Hbad _]. lra.
Qed.

Lemma stress_alert_silenced_witness :
  display_stress_alert ([0.9; 0.9; 0.9] ++ 0.7 :: [0.9; 0.9; 0.9; 0.9]) 0.7 5
  = false.
Proof.
  apply (stress_alert_silenced [0.9; 0.9; 0.9] [0.9; 0.9; 0.9; 0.9] 0.7 0.7 5).
  - lra.
  - simpl. lia.
Defined.

(** X24.  The pie chart is never handed unusable data.  For a non-empty
    mapping the labels and values have the same, non-zero length, no
    value is negative and the values have a positive total: negative
    scores are dropped, and when nothing is left or the total is 0 the
    chart shows the single slice "Neutral" of value 1.  Only the empty
    mapping gives the figure without a pie. *)
Theorem pie_data_usable (title : string -> string) (face_emotions : dict) :
  (pie_data title face_emotions = None <-> face_emotions = [])
  /\ (forall emotions values,
        pie_data title face_emotions = Some (emotions, values) ->
        length emotions = length values /\ emotions <> []
        /\ Forall (fun v => 0 <= v) values /\ 0 < sum values).
Proof.
  split.
  - unfold pie_data. destruct face_emotions as [|kv d]; [done|].
    split; [|done].
    destruct (map _ _); [done|]. by destruct (Qeq_bool _ _).
  - intros emotions values. unfold pie_data.
    destruct face_emotions as [|kv d]; [done|].
    cbv zeta.
    match goal with
    | |- context [map snd ?l] => set (kept := l)
    end.
    assert (Forall (fun v => 0 <= v) (map snd kept)) as Hpos.
    { apply Forall_map, Forall_forall. intros x Hx.
      apply list_elem_of_filter in Hx as [Hx _]. by apply Qle_bool_iff. }
    assert (length (map (fun kv => title kv.1) kept) = length (map snd kept))
      as Hlen by by rewrite !length_map.
    assert (0 < sum [1.0]) as Hone by reflexivity.
    destruct (map (fun kv => title kv.1) kept) as [|l ls] eqn:El.
    + intros ?; simplify_eq.
      split; [done|]. split; [done|]. split; [|done].
      constructor; [discriminate|constructor].
    + destruct (Qeq_bool (sum (map snd kept)) 0) eqn:Ez.
      * intros ?; simplify_eq.
        split; [done|]. split; [done|]. split; [|done].
        constructor; [discriminate|constructor].
      * intros ?; simplify_eq. apply Qeq_bool_neq in Ez.
        pose proof (sum_nonneg _ Hpos) as Hs.
        split; [done|]. split; [done|]. split; [done|].
        apply Qle_lteq in Hs as [Hs | Hs]; [done|]. by symmetry in Hs.
Qed.

Lemma pie_data_usable_witness :
  length ["Neutral"%string] = length [1.0] /\ ["Neutral"%string] <> []
  /\ Forall (fun v => 0 <= v) [1.0] /\ 0 < sum [1.0].
Proof.
  apply (proj2 (pie_data_usable (fun s => s)
                  [("happy"%string, -1); ("sad"%string, -0.5)])).
  reflexivity.
Defined.

End DashboardProperties.
